(** * go-congress: the ProPublica Congress API client, embedded in Rocq

    The development follows [congress/client.go].  Every exported method of
    [Client] is translated as a computation in a small state monad whose state
    is the outside world (the network the HTTP client talks to) together with
    a log of the library calls performed.  The libraries the client calls,
    [net/http], [io/ioutil], [fmt] and [encoding/json], are not part of the
    repository: [fmt.Sprintf] is written out for the two verbs in use, the
    others are taken as an environment ([URLParser], [Net], [Unmarshaler]),
    and every theorem holds for all environments.

    [congress/member.go] is an earlier revision of the same package: one flat
    [Member] record and [GetMembers] alone, with the body [GetMembers] has in
    [client.go]. *)

From Stdlib Require Import String Ascii List ZArith Lia Bool.
From Stdlib Require Import DecimalString Floats.SpecFloat Strings.Byte.
Import ListNotations.
Open Scope string_scope.

Set Implicit Arguments.

(** ** Go values *)

(** [int] is the 64-bit Go integer.  The client only prints integers, so no
    arithmetic (and no wrap-around) is involved. *)
Definition int := Z.

(** [float32] fields are only stored; [spec_float] gives their values, the
    zero value being positive zero. *)
Definition float32 := spec_float.
Definition float32_zero : float32 := S754_zero false.

(** A [[]byte]. *)
Definition bytes := list byte.

(** A slice is modelled by the list of its elements: [len] is [length],
    [s[i]] is [nth i s zero] (every use in the client is guarded by a test on
    [len]) and [append(s, t...)] is [s ++ t].  The [nil] slice and the empty
    slice are both [[]]. *)
Definition len {A} (s : list A) : nat := length s.

(** The two kinds of [error] a method can return: those raised while building
    or performing the request and reading its body, and those raised by
    [json.Unmarshal].  A [nil] error is [None]. *)
Inductive error : Type :=
| TransportError (msg : string)
| DecodeError (msg : string).

Definition is_transport (e : error) : bool :=
  match e with TransportError _ => true | DecodeError _ => false end.

Definition is_decode (e : error) : bool :=
  match e with DecodeError _ => true | TransportError _ => false end.

(** ** [fmt.Sprintf], for the verbs the client uses *)

Module fmt.

Inductive arg : Type :=
| S (s : string)
| D (n : int).

(** The verb [%d] on an [int]: decimal digits, with a leading minus sign. *)
Definition decimal (n : int) : string := NilZero.string_of_int (Z.to_int n).

(** The operand under a verb.  [%s] takes a string and [%d] an integer; on
    the other combinations [fmt] prints the operand with a complaint. *)
Definition verb (v : ascii) (a : arg) : string :=
  match v, a with
  | "s"%char, S s => s
  | "d"%char, D n => decimal n
  | _, S s => "%!" ++ String v ("(string=" ++ s ++ ")")
  | _, D n => "%!" ++ String v ("(int=" ++ decimal n ++ ")")
  end.

Fixpoint Sprintf (format : string) (args : list arg) : string :=
  match format with
  | EmptyString => EmptyString
  | String "%"%char EmptyString => "%!(NOVERB)"
  | String "%"%char (String "%"%char rest) => String "%"%char (Sprintf rest args)
  | String "%"%char (String v rest) =>
      match args with
      | a :: args' => verb v a ++ Sprintf rest args'
      | [] => "%!" ++ String v ("(MISSING)" ++ Sprintf rest [])
      end
  | String ch rest => String ch (Sprintf rest args)
  end.

End fmt.

(** ** The records of [client.go]

    One module per Go struct, so that fields keep their Go names.  An embedded
    struct is a field named after its type.  [zero] is the zero value. *)

Module Client.
Record t : Type := mk {
  (* Endpoint is the URL of the ProPublica Congress API *)
  Endpoint : string;
  (* Key is the user's ProPublica API key *)
  Key : string
}.
End Client.

Module TrackingIDs.
Record t : Type := mk {
  Govtrack : string;
  CSPAN : string;
  Votesmart : string;
  ICPSR : string;
  CRP : string;
  Google : string;
  Website : string;
  RSS : string
}.
Definition zero : t := mk "" "" "" "" "" "" "" "".
End TrackingIDs.

Module Member.
Record t : Type := mk {
  FirstName : string;
  MiddleName : string;
  LastName : string;
  Suffix : string;
  Twitter : string;
  Facebook : string;
  Youtube : string;
  URL : string;
  TrackingIDs : TrackingIDs.t
}.
Definition zero : t := mk "" "" "" "" "" "" "" "" TrackingIDs.zero.
End Member.

Module MemberSummary.
Record t : Type := mk {
  Member : Member.t;
  ID : string;
  Birth : string;
  State : string;
  Title : string;
  ShortTitle : string;
  InOffice : bool;
  SenateClass : string;
  StateRank : string;
  Party : string;
  Leadership : string;
  Office : string;
  Phone : string;
  Fax : string;
  TrackingIDs : TrackingIDs.t;
  Contact : string;
  TotalVotes : int;
  MissedVotes : int;
  PresentVotes : int;
  NextElection : string;
  Seniority : string;
  MissedVotesPct : float32;
  VotesWithParty : float32;
  LIS : string;
  FEC : string;
  DWNominate : float32;
  IdealPoint : string;
  OCD : string
}.
Definition zero : t :=
  mk Member.zero "" "" "" "" "" false "" "" "" "" "" "" "" TrackingIDs.zero
     "" 0%Z 0%Z 0%Z "" "" float32_zero float32_zero "" "" float32_zero "" "".
End MemberSummary.

Module MemberCommittee.
Record t : Type := mk {
  Name : string;
  Code : string;
  URL : string;
  Side : string;
  Title : string;
  PartyRank : int;
  BeginDate : string;
  EndDate : string
}.
Definition zero : t := mk "" "" "" "" "" 0%Z "" "".
End MemberCommittee.

Module MemberSubcommittee.
Record t : Type := mk {
  MemberCommittee : MemberCommittee.t;
  Parent : string
}.
Definition zero : t := mk MemberCommittee.zero "".
End MemberSubcommittee.

Module MemberRole.
Record t : Type := mk {
  Congress : string;
  Chamber : string;
  Title : string;
  ShortTitle : string;
  State : string;
  Party : string;
  Leadership : string;
  FEC : string;
  Seniority : string;
  District : string;
  AtLarge : bool;
  OCD : string;
  StartDate : string;
  EndDate : string;
  Office : string;
  Phone : string;
  Fax : string;
  Contact : string;
  Sponsored : int;
  Cosponsored : int;
  MissedVotesPct : float32;
  VotesWithParty : float32;
  Committees : list MemberCommittee.t
}.
Definition zero : t :=
  mk "" "" "" "" "" "" "" "" "" "" false "" "" "" "" "" "" "" 0%Z 0%Z
     float32_zero float32_zero [].
End MemberRole.

Module MemberDetails.
Record t : Type := mk {
  Member : Member.t;
  ID : string;
  Birth : string;
  Gender : string;
  Party : string;
  State : string;
  InOffice : bool;
  TimesTopics : string;
  TimesTag : string;
  MostRecentVote : string;
  Roles : list MemberRole.t;
  TrackingIDs : TrackingIDs.t
}.
Definition zero : t :=
  mk Member.zero "" "" "" "" "" false "" "" "" [] TrackingIDs.zero.
End MemberDetails.

Module MemberSearch.
Record t : Type := mk {
  Member : Member.t;
  ID : string;
  Name : string;
  Title : string;
  Gender : string;
  Party : string;
  TimesTopics : string;
  Seniority : string;
  NextElection : string;
  URL : string
}.
Definition zero : t := mk Member.zero "" "" "" "" "" "" "" "" "".
End MemberSearch.

Module MemberInTransition.
Record t : Type := mk {
  ID : string;
  FirstName : string;
  MiddleName : string;
  LastName : string;
  Suffix : string;
  Party : string;
  Chamber : string;
  State : string;
  District : string;
  StartDate : string;
  URL : string;
  EndDate : string;
  Status : string;
  Note : string
}.
Definition zero : t := mk "" "" "" "" "" "" "" "" "" "" "" "" "" "".
End MemberInTransition.

(** The response envelopes. *)

Module getMembersResults.
Record t : Type := mk {
  Congress : string;
  Chamber : string;
  ResultCount : int;
  Offset : int;
  Members : list MemberSummary.t
}.
Definition zero : t := mk "" "" 0%Z 0%Z [].
End getMembersResults.

Module getMembersResponse.
Record t : Type := mk {
  Status : string;
  Copyright : string;
  Results : list getMembersResults.t
}.
Definition zero : t := mk "" "" [].
End getMembersResponse.

Module getMemberResponse.
Record t : Type := mk {
  Status : string;
  Copyright : string;
  Results : list MemberDetails.t
}.
Definition zero : t := mk "" "" [].
End getMemberResponse.

Module getMembersByStateResponse.
Record t : Type := mk {
  Status : string;
  Copyright : string;
  Results : list MemberSearch.t
}.
Definition zero : t := mk "" "" [].
End getMembersByStateResponse.

Module getMembersInTransitionResults.
Record t : Type := mk {
  Members : list MemberInTransition.t;
  Congress : string;
  Chamber : string
}.
Definition zero : t := mk [] "" "".
End getMembersInTransitionResults.

Module getMembersInTransitionResponse.
Record t : Type := mk {
  Status : string;
  Copyright : string;
  Results : list getMembersInTransitionResults.t
}.
Definition zero : t := mk "" "" [].
End getMembersInTransitionResponse.

(** ** The environment: [net/http], [io/ioutil], [encoding/json] *)

Module http.

(** [Header] lists the fields in the order [Header.Add] was called. *)
Record Request : Type := mkRequest {
  Method : string;
  URL : string;
  Header : list (string * string)
}.

(** A response body is a stream: [data] is what it yields, [failure] the
    error that ends it when it does not end with [EOF]. *)
Record ReadCloser : Type := mkBody {
  data : bytes;
  failure : option string
}.

Record Response : Type := mkResponse {
  StatusCode : int;
  Body : ReadCloser
}.

Definition Header_Add (req : Request) (key value : string) : Request :=
  mkRequest (Method req) (URL req) (Header req ++ [(key, value)]).

End http.

(** The URLs [http.NewRequest] refuses: [url_error] is its complaint about a
    URL it cannot parse. *)
Class URLParser : Type :=
  url_error : string -> option string.

(** What the network does.  [round_trip] is [client.Do]: it answers a request
    with a response or with an error message, and moves the world. *)
Class Net : Type := {
  World : Type;
  round_trip : http.Request -> World -> (string + http.Response) * World
}.

(** [json.Unmarshal] into a value of type [T]: the decoded value or the
    message of the error. *)
Class Unmarshaler (T : Type) : Type :=
  unmarshal : bytes -> string + T.

(** The library calls of one run, in the order they happen; [EvDo] records
    the request sent and what came back. *)
Inductive Event : Type :=
| EvNewRequest (method url : string)
| EvDo (req : http.Request) (answer : string + http.Response)
| EvReadAll
| EvUnmarshal (body : bytes).

Section Monad.

Context {N : Net}.

Record State : Type := mkState {
  world : World;
  trace : list Event
}.

Definition M (A : Type) : Type := State -> A * State.

Definition ret {A} (a : A) : M A := fun s => (a, s).

Definition bind {A B} (m : M A) (k : A -> M B) : M B :=
  fun s => let (a, s') := m s in k a s'.

Definition emit (e : Event) : M unit :=
  fun s => (tt, mkState (world s) (trace s ++ [e])).

(** A library call that returns [(value, err)], followed by
    [if err != nil { return }] in a function whose named result holds
    [cur]: the bare [return] hands back [cur] and the error. *)
Definition check {A R} (m : M (error + A)) (cur : R)
    (k : A -> M (R * option error)) : M (R * option error) :=
  bind m (fun r =>
    match r with
    | inl err => ret (cur, Some err)
    | inr a => k a
    end).

Definition start (w : World) : State := mkState w [].

End Monad.

Declare Scope go_scope.
Delimit Scope go_scope with go.
Notation "x <- m ;; k" := (bind m (fun x => k))
  (at level 61, m at next level, right associativity) : go_scope.
Notation "' pat <- m ;; k" := (bind m (fun x => match x with pat => k end))
  (at level 61, pat pattern, m at next level, right associativity) : go_scope.
Notation "x <-[ cur ] m ;; k" := (check m cur (fun x => k))
  (at level 61, m at next level, right associativity) : go_scope.
Open Scope go_scope.

Section Library.

Context {P : URLParser} {N : Net}.

Definition http_NewRequest (method url : string) : M (error + http.Request) :=
  _ <- emit (EvNewRequest method url) ;;
  ret match url_error url with
      | Some msg => inl (TransportError msg)
      | None => inr (http.mkRequest method url [])
      end.

Definition client_Do (req : http.Request) : M (error + http.Response) :=
  fun s =>
    let (r, w) := round_trip req (world s) in
    (match r with
     | inl msg => inl (TransportError msg)
     | inr resp => inr resp
     end,
     mkState w (trace s ++ [EvDo req r])).

Definition ioutil_ReadAll (r : http.ReadCloser) : M (error + bytes) :=
  _ <- emit EvReadAll ;;
  ret match http.failure r with
      | Some msg => inl (TransportError msg)
      | None => inr (http.data r)
      end.

Definition json_Unmarshal {T} {U : Unmarshaler T} (body : bytes) : M (error + T) :=
  _ <- emit (EvUnmarshal body) ;;
  ret match unmarshal body with
      | inl msg => inl (DecodeError msg)
      | inr v => inr v
      end.

End Library.

(** ** The methods of [Client] *)

Section Methods.

Context {P : URLParser} {N : Net}.
Context {U_members : Unmarshaler getMembersResponse.t}.
Context {U_member : Unmarshaler getMemberResponse.t}.
Context {U_state : Unmarshaler getMembersByStateResponse.t}.
Context {U_transition : Unmarshaler getMembersInTransitionResponse.t}.

Import fmt.

(* GetMembers fetches a list of members of a defined chamber of Congress
   ("house" or "senate") in a particular congress (i.e. 115). *)
Definition GetMembers (c : Client.t) (congress : int) (chamber : string)
    : M (list MemberSummary.t * option error) :=
  let members : list MemberSummary.t := [] in
  req <-[members] http_NewRequest "GET"
        (Sprintf "%s/%d/%s/members.json" [S (Client.Endpoint c); D congress; S chamber]) ;;
  let req := http.Header_Add req "X-API-Key" (Client.Key c) in
  resp <-[members] client_Do req ;;
  body <-[members] ioutil_ReadAll (http.Body resp) ;;
  unmarshaled <-[members] json_Unmarshal (T := getMembersResponse.t) body ;;
  let members :=
    if (0 <? len (getMembersResponse.Results unmarshaled))%nat
    then getMembersResults.Members
           (nth 0 (getMembersResponse.Results unmarshaled) getMembersResults.zero)
    else members in
  ret (members, None).

(* GetMember fetches detailed information about a single politician spanning
   their congressional career *)
Definition GetMember (c : Client.t) (id : string)
    : M (MemberDetails.t * option error) :=
  let member : MemberDetails.t := MemberDetails.zero in
  req <-[member] http_NewRequest "GET"
        (Sprintf "%s/members/%s.json" [S (Client.Endpoint c); S id]) ;;
  let req := http.Header_Add req "X-API-Key" (Client.Key c) in
  resp <-[member] client_Do req ;;
  body <-[member] ioutil_ReadAll (http.Body resp) ;;
  unmarshaled <-[member] json_Unmarshal (T := getMemberResponse.t) body ;;
  let member :=
    if (0 <? len (getMemberResponse.Results unmarshaled))%nat
    then nth 0 (getMemberResponse.Results unmarshaled) MemberDetails.zero
    else member in
  ret (member, None).

(* GetChamberMembersByState fetches basic information about the congressional
   delegation of a single chamber for a single state. *)
Definition GetChamberMembersByState (c : Client.t) (state chamber : string)
    : M (list MemberSearch.t * option error) :=
  let members : list MemberSearch.t := [] in
  req <-[members] http_NewRequest "GET"
        (Sprintf "%s/members/%s/%s/current.json" [S (Client.Endpoint c); S chamber; S state]) ;;
  let req := http.Header_Add req "X-API-Key" (Client.Key c) in
  resp <-[members] client_Do req ;;
  body <-[members] ioutil_ReadAll (http.Body resp) ;;
  unmarshaled <-[members] json_Unmarshal (T := getMembersByStateResponse.t) body ;;
  let members := getMembersByStateResponse.Results unmarshaled in
  ret (members, None).

(* GetMembersByState fetches basic information about the entire congressional
   delegation for a single state *)
Definition GetMembersByState (c : Client.t) (state : string)
    : M (list MemberSearch.t * option error) :=
  '(members, err) <- GetChamberMembersByState c state "house" ;;
  match err with
  | Some _ => ret (members, err)
  | None =>
      '(senate, err) <- GetChamberMembersByState c state "senate" ;;
      match err with
      | Some _ => ret (members, err)
      | None =>
          let members := (members ++ senate)%list in
          ret (members, err)
      end
  end.

(* GetChamberMembersByDistrict fetches basic information about the
   congressional delegation of a single chamber for a single district of a
   state. *)
Definition GetChamberMembersByDistrict (c : Client.t) (state : string)
    (district : int) (chamber : string)
    : M (list MemberSearch.t * option error) :=
  let members : list MemberSearch.t := [] in
  req <-[members] http_NewRequest "GET"
        (Sprintf "%s/members/%s/%s/%d/current.json"
           [S (Client.Endpoint c); S chamber; S state; D district]) ;;
  let req := http.Header_Add req "X-API-Key" (Client.Key c) in
  resp <-[members] client_Do req ;;
  body <-[members] ioutil_ReadAll (http.Body resp) ;;
  unmarshaled <-[members] json_Unmarshal (T := getMembersByStateResponse.t) body ;;
  let members := getMembersByStateResponse.Results unmarshaled in
  ret (members, None).

(* GetNewMembers fetches basic information about the first-time members
   of either chamber. *)
Definition GetNewMembers (c : Client.t)
    : M (list MemberInTransition.t * option error) :=
  let members : list MemberInTransition.t := [] in
  req <-[members] http_NewRequest "GET"
        (Sprintf "%s/members/new.json" [S (Client.Endpoint c)]) ;;
  let req := http.Header_Add req "X-API-Key" (Client.Key c) in
  resp <-[members] client_Do req ;;
  body <-[members] ioutil_ReadAll (http.Body resp) ;;
  unmarshaled <-[members] json_Unmarshal (T := getMembersInTransitionResponse.t) body ;;
  let members :=
    if (0 <? len (getMembersInTransitionResponse.Results unmarshaled))%nat
    then getMembersInTransitionResults.Members
           (nth 0 (getMembersInTransitionResponse.Results unmarshaled)
                getMembersInTransitionResults.zero)
    else members in
  ret (members, None).

(* GetDepartingMembers fetches basic information about the outgoing members
   of both chambers for a particular Congress. *)
Definition GetDepartingMembers (c : Client.t) (congress : int) (chamber : string)
    : M (list MemberInTransition.t * option error) :=
  let members : list MemberInTransition.t := [] in
  req <-[members] http_NewRequest "GET"
        (Sprintf "%s/%d/%s/members/leaving.json"
           [S (Client.Endpoint c); D congress; S chamber]) ;;
  let req := http.Header_Add req "X-API-Key" (Client.Key c) in
  resp <-[members] client_Do req ;;
  body <-[members] ioutil_ReadAll (http.Body resp) ;;
  unmarshaled <-[members] json_Unmarshal (T := getMembersInTransitionResponse.t) body ;;
  (* Results are broken down by chamber *)
  let members :=
    if (0 <? len (getMembersInTransitionResponse.Results unmarshaled))%nat
    then getMembersInTransitionResults.Members
           (nth 0 (getMembersInTransitionResponse.Results unmarshaled)
                getMembersInTransitionResults.zero)
    else members in
  let members :=
    if (1 <? len (getMembersInTransitionResponse.Results unmarshaled))%nat
    then (members ++
          getMembersInTransitionResults.Members
            (nth 1 (getMembersInTransitionResponse.Results unmarshaled)
                 getMembersInTransitionResults.zero))%list
    else members in
  ret (members, None).

End Methods.

(** ** The vocabulary of the specification *)

Module Spec.

Import fmt.

(** The path templates of the API. *)
Definition path_members (congress : int) (chamber : string) : string :=
  "/" ++ decimal congress ++ "/" ++ chamber ++ "/members.json".
Definition path_member (id : string) : string :=
  "/members/" ++ id ++ ".json".
Definition path_state (chamber state : string) : string :=
  "/members/" ++ chamber ++ "/" ++ state ++ "/current.json".
Definition path_district (chamber state : string) (district : int) : string :=
  "/members/" ++ chamber ++ "/" ++ state ++ "/" ++ decimal district ++ "/current.json".
Definition path_new : string :=
  "/members/new.json".
Definition path_leaving (congress : int) (chamber : string) : string :=
  "/" ++ decimal congress ++ "/" ++ chamber ++ "/members/leaving.json".

(** The unwrap strategies, on the [results] field of a decoded envelope. *)
Definition direct_list {E} (results : list E) : list E := results.

Definition first_group {G E} (members : G -> list E) (results : list G) : list E :=
  match results with
  | g :: _ => members g
  | [] => []
  end.

Definition first_single {E} (zero : E) (results : list E) : E :=
  match results with
  | e :: _ => e
  | [] => zero
  end.

Definition all_groups_concatenated {G E} (members : G -> list E)
    (results : list G) : list E :=
  concat (map members results).

End Spec.

(** The seven exported methods as one family, to state what holds of every
    operation: an operation with its arguments, and what it returns. *)
Inductive Operation : Type :=
| OpGetMembers (congress : int) (chamber : string)
| OpGetMember (id : string)
| OpGetChamberMembersByState (state chamber : string)
| OpGetMembersByState (state : string)
| OpGetChamberMembersByDistrict (state : string) (district : int) (chamber : string)
| OpGetNewMembers
| OpGetDepartingMembers (congress : int) (chamber : string).

Inductive Result : Type :=
| Summaries (members : list MemberSummary.t)
| Details (member : MemberDetails.t)
| Searches (members : list MemberSearch.t)
| Transitions (members : list MemberInTransition.t).

Definition returns_list (op : Operation) : bool :=
  match op with
  | OpGetMember _ => false
  | _ => true
  end.

(** The paths an operation asks for, in the order of its requests. *)
Definition paths (op : Operation) : list string :=
  match op with
  | OpGetMembers congress chamber => [Spec.path_members congress chamber]
  | OpGetMember id => [Spec.path_member id]
  | OpGetChamberMembersByState state chamber => [Spec.path_state chamber state]
  | OpGetMembersByState state =>
      [Spec.path_state "house" state; Spec.path_state "senate" state]
  | OpGetChamberMembersByDistrict state district chamber =>
      [Spec.path_district chamber state district]
  | OpGetNewMembers => [Spec.path_new]
  | OpGetDepartingMembers congress chamber => [Spec.path_leaving congress chamber]
  end.

Definition urls (c : Client.t) (op : Operation) : list string :=
  map (fun path => Client.Endpoint c ++ path) (paths op).

(** The URL of the first request of an operation. *)
Definition first_url (c : Client.t) (op : Operation) : string :=
  Client.Endpoint c ++ hd "" (paths op).

(** The result of an operation that carries no entity: the empty list, or
    the zero record for [GetMember]. *)
Definition nothing (op : Operation) : Result :=
  match op with
  | OpGetMembers _ _ => Summaries []
  | OpGetMember _ => Details MemberDetails.zero
  | OpGetChamberMembersByState _ _ => Searches []
  | OpGetMembersByState _ => Searches []
  | OpGetChamberMembersByDistrict _ _ _ => Searches []
  | OpGetNewMembers => Transitions []
  | OpGetDepartingMembers _ _ => Transitions []
  end.

(** The request for a URL, as every method builds it. *)
Definition api_request (c : Client.t) (url : string) : http.Request :=
  http.mkRequest "GET" url [("X-API-Key", Client.Key c)].

(** What a trace shows: the URLs given to [http.NewRequest], the requests
    sent, what came back without its status code, and the bodies given to
    [json.Unmarshal]. *)
Definition constructed (tr : list Event) : list string :=
  flat_map (fun e => match e with EvNewRequest _ url => [url] | _ => [] end) tr.

Definition sent (tr : list Event) : list http.Request :=
  flat_map (fun e => match e with EvDo req _ => [req] | _ => [] end) tr.

Definition received (tr : list Event) : list (string + http.ReadCloser) :=
  flat_map (fun e =>
    match e with
    | EvDo _ (inl msg) => [inl msg]
    | EvDo _ (inr resp) => [inr (http.Body resp)]
    | _ => []
    end) tr.

Definition decoded (tr : list Event) : list bytes :=
  flat_map (fun e => match e with EvUnmarshal body => [body] | _ => [] end) tr.

Section Operations.

Context {P : URLParser} {N : Net}.
Context {U_members : Unmarshaler getMembersResponse.t}.
Context {U_member : Unmarshaler getMemberResponse.t}.
Context {U_state : Unmarshaler getMembersByStateResponse.t}.
Context {U_transition : Unmarshaler getMembersInTransitionResponse.t}.

(** The request and response cycle of the specification, for a URL, the
    value the named result starts with and the way the decoded envelope is
    unwrapped.  The package has no such function: each of the six
    single-request methods writes the cycle out, and is shown below to be
    this one with its own URL and unwrap strategy. *)
Definition execute {T R} {U : Unmarshaler T} (c : Client.t) (url : string)
    (zero : R) (unwrap : T -> R) : M (R * option error) :=
  req <-[zero] http_NewRequest "GET" url ;;
  let req := http.Header_Add req "X-API-Key" (Client.Key c) in
  resp <-[zero] client_Do req ;;
  body <-[zero] ioutil_ReadAll (http.Body resp) ;;
  unmarshaled <-[zero] json_Unmarshal body ;;
  ret (unwrap unmarshaled, None).

Definition tagged {A} (tag : A -> Result) (m : M (A * option error))
    : M (Result * option error) :=
  '(a, err) <- m ;; ret (tag a, err).

Definition invoke (c : Client.t) (op : Operation) : M (Result * option error) :=
  match op with
  | OpGetMembers congress chamber =>
      tagged Summaries (GetMembers c congress chamber)
  | OpGetMember id =>
      tagged Details (GetMember c id)
  | OpGetChamberMembersByState state chamber =>
      tagged Searches (GetChamberMembersByState c state chamber)
  | OpGetMembersByState state =>
      tagged Searches (GetMembersByState c state)
  | OpGetChamberMembersByDistrict state district chamber =>
      tagged Searches (GetChamberMembersByDistrict c state district chamber)
  | OpGetNewMembers =>
      tagged Transitions (GetNewMembers c)
  | OpGetDepartingMembers congress chamber =>
      tagged Transitions (GetDepartingMembers c congress chamber)
  end.

(** The world [w] answers the request for [url] with a response, of any
    status code, whose body reads [body] in full, and becomes [w']. *)
Definition delivers (c : Client.t) (url : string) (w : World) (body : bytes)
    (w' : World) : Prop :=
  url_error url = None /\
  exists status,
    round_trip (api_request c url) w
    = (inr (http.mkResponse status (http.mkBody body None)), w').

(** The network call for [url] fails with [msg]. *)
Definition refuses (c : Client.t) (url : string) (w : World) (msg : string)
    (w' : World) : Prop :=
  url_error url = None /\
  round_trip (api_request c url) w = (inl msg, w').

(** [json.Unmarshal] of [body] into the envelope of the operation fails
    with [msg]. *)
Definition malformed (op : Operation) (body : bytes) (msg : string) : Prop :=
  match op with
  | OpGetMembers _ _ =>
      unmarshal (T := getMembersResponse.t) body = inl msg
  | OpGetMember _ =>
      unmarshal (T := getMemberResponse.t) body = inl msg
  | OpGetChamberMembersByState _ _ | OpGetMembersByState _
  | OpGetChamberMembersByDistrict _ _ _ =>
      unmarshal (T := getMembersByStateResponse.t) body = inl msg
  | OpGetNewMembers | OpGetDepartingMembers _ _ =>
      unmarshal (T := getMembersInTransitionResponse.t) body = inl msg
  end.

(** The number of [results] in the envelope of the operation that [body]
    decodes to, when it does decode. *)
Definition results_len (op : Operation) (body : bytes) : option nat :=
  match op with
  | OpGetMembers _ _ =>
      match unmarshal body with
      | inr e => Some (len (getMembersResponse.Results e))
      | inl _ => None
      end
  | OpGetMember _ =>
      match unmarshal body with
      | inr e => Some (len (getMemberResponse.Results e))
      | inl _ => None
      end
  | OpGetChamberMembersByState _ _ | OpGetMembersByState _
  | OpGetChamberMembersByDistrict _ _ _ =>
      match unmarshal body with
      | inr e => Some (len (getMembersByStateResponse.Results e))
      | inl _ => None
      end
  | OpGetNewMembers | OpGetDepartingMembers _ _ =>
      match unmarshal body with
      | inr e => Some (len (getMembersInTransitionResponse.Results e))
      | inl _ => None
      end
  end.

(** [body] is a well-formed envelope of the operation; it is one whose
    [results] are empty. *)
Definition well_formed (op : Operation) (body : bytes) : Prop :=
  results_len op body <> None.

Definition empty_envelope (op : Operation) (body : bytes) : Prop :=
  results_len op body = Some 0.

(** The world answers the requests for [us], one after the other, with
    bodies that all satisfy [good]. *)
Fixpoint serves (c : Client.t) (good : bytes -> Prop) (us : list string)
    (w : World) : Prop :=
  match us with
  | [] => True
  | url :: us' =>
      exists body w', delivers c url w body w' /\ good body /\ serves c good us' w'
  end.

End Operations.

(** ** A test environment

    A scripted network and table-driven decoders, to run the methods on
    concrete responses. *)

Module Mock.

(** JSON texts are written with ['] for the double quote. *)
Definition json (text : string) : bytes :=
  list_byte_of_string
    (string_of_list_ascii
       (map (fun ch => if Ascii.eqb ch "'" then "034"%char else ch)
            (list_ascii_of_string text))).

(** A URL that starts with a colon has no scheme. *)
#[export] Instance parser : URLParser :=
  fun url =>
    match url with
    | String ":" _ => Some "missing protocol scheme"
    | _ => None
    end.

(** The world is the script of the answers still to come: each call of
    [client.Do] takes the next one, and finds nobody when none is left. *)
#[export] Instance net : Net := {|
  World := list (string + http.Response);
  round_trip := fun _ script =>
    match script with
    | answer :: script' => (answer, script')
    | [] => (inl "connection refused", [])
    end
|}.

Definition ok (status : int) (text : string) : string + http.Response :=
  inr (http.mkResponse status (http.mkBody (json text) None)).

Definition from_table {T} (table : list (string * T)) : Unmarshaler T :=
  fun body =>
    match find (fun row => String.eqb (string_of_list_byte (json (fst row)))
                                      (string_of_list_byte body)) table with
    | Some row => inr (snd row)
    | None => inl "invalid character '<' looking for beginning of value"
    end.

Definition client : Client.t :=
  Client.mk "https://api.propublica.org/congress/v1" "KEYgoesHERE123".

Definition html : string := "<html>Bad Gateway</html>".

Definition empty : string := "{'status':'OK','results':[]}".

(** Members of a chamber. *)
Definition summary (id first_name : string) : MemberSummary.t :=
  MemberSummary.mk
    (Member.mk first_name "" "" "" "" "" "" "" TrackingIDs.zero)
    id "" "" "" "" false "" "" "" "" "" "" "" TrackingIDs.zero
    "" 0%Z 0%Z 0%Z "" "" float32_zero float32_zero "" "" float32_zero "" "".

Definition senate_115 : string :=
  "{'results':[{'members':[{'id':'K000388','first_name':'Amy'}]}]}".

Definition senate_115_paged : string :=
  "{'results':[{'members':[{'id':'K000388','first_name':'Amy'}]},{'members':[{'id':'S000033','first_name':'Bernard'}]}]}".

#[export] Instance members_decoder : Unmarshaler getMembersResponse.t :=
  from_table
    [ (senate_115,
       getMembersResponse.mk "" ""
         [getMembersResults.mk "" "" 0%Z 0%Z [summary "K000388" "Amy"]]);
      (senate_115_paged,
       getMembersResponse.mk "" ""
         [getMembersResults.mk "" "" 0%Z 0%Z [summary "K000388" "Amy"];
          getMembersResults.mk "" "" 0%Z 0%Z [summary "S000033" "Bernard"]]);
      (empty, getMembersResponse.mk "OK" "" []) ].

(** One member. *)
Definition nobody : string := "{'status':'OK','results':[{}]}".

#[export] Instance member_decoder : Unmarshaler getMemberResponse.t :=
  from_table
    [ (empty, getMemberResponse.mk "OK" "" []);
      (nobody, getMemberResponse.mk "OK" "" [MemberDetails.zero]) ].

(** Members by state. *)
Definition search (id name : string) : MemberSearch.t :=
  MemberSearch.mk Member.zero id name "" "" "" "" "" "" "".

Definition nj_house : string :=
  "{'results':[{'id':'P000034','name':'Frank Pallone'}]}".

Definition nj_senate : string :=
  "{'results':[{'id':'B001288','name':'Cory Booker'},{'id':'M000639','name':'Robert Menendez'}]}".

#[export] Instance state_decoder : Unmarshaler getMembersByStateResponse.t :=
  from_table
    [ (nj_house,
       getMembersByStateResponse.mk "" "" [search "P000034" "Frank Pallone"]);
      (nj_senate,
       getMembersByStateResponse.mk "" ""
         [search "B001288" "Cory Booker"; search "M000639" "Robert Menendez"]);
      (empty, getMembersByStateResponse.mk "OK" "" []) ].

(** Members in transition. *)
Definition transition (id : string) : MemberInTransition.t :=
  MemberInTransition.mk id "" "" "" "" "" "" "" "" "" "" "" "" "".

Definition leaving_two : string :=
  "{'results':[{'chamber':'house','members':[{'id':'A1'}]},{'chamber':'senate','members':[{'id':'B2'}]}]}".

Definition leaving_three : string :=
  "{'results':[{'chamber':'house','members':[{'id':'A1'}]},{'chamber':'senate','members':[{'id':'B2'}]},{'chamber':'joint','members':[{'id':'C3'}]}]}".

#[export] Instance transition_decoder
  : Unmarshaler getMembersInTransitionResponse.t :=
  from_table
    [ (leaving_two,
       getMembersInTransitionResponse.mk "" ""
         [getMembersInTransitionResults.mk [transition "A1"] "" "house";
          getMembersInTransitionResults.mk [transition "B2"] "" "senate"]);
      (leaving_three,
       getMembersInTransitionResponse.mk "" ""
         [getMembersInTransitionResults.mk [transition "A1"] "" "house";
          getMembersInTransitionResults.mk [transition "B2"] "" "senate";
          getMembersInTransitionResults.mk [transition "C3"] "" "joint"]);
      (empty, getMembersInTransitionResponse.mk "OK" "" []) ].

End Mock.

(** ** The earlier revision of the package: [congress/member.go]

    One flat [Member] record, and [GetMembers] alone. *)

Module member_go.

Module Member.
Record t : Type := mk {
  ID : string;
  Title : string;
  ShortTitle : string;
  FirstName : string;
  MiddleName : string;
  LastName : string;
  Suffix : string;
  Birth : string;
  Party : string;
  State : string;
  SenateClass : string;
  StateRank : string;
  Leadership : string;
  InOffice : bool;
  Seniority : string;
  NextElection : string;
  TotalVotes : int;
  MissedVotes : int;
  PresentVotes : int;
  OCD : string;
  Office : string;
  Phone : string;
  Fax : string;
  LIS : string;
  MissedVotesPct : float32;
  VotesWithParty : float32;
  Twitter : string;
  Facebook : string;
  Youtube : string;
  Govtrack : string;
  CSPAN : string;
  Votesmart : string;
  ICPSR : string;
  CRP : string;
  Google : string;
  FEC : string;
  DWNominate : float32;
  IdealPoint : string;
  URL : string;
  RSS : string;
  Contact : string;
  API : string
}.
Definition zero : t :=
  mk "" "" "" "" "" "" "" "" "" "" "" "" "" false "" "" 0%Z 0%Z 0%Z
     "" "" "" "" "" float32_zero float32_zero "" "" "" "" "" "" "" "" ""
     "" float32_zero "" "" "" "" "".
End Member.

Module getMembersResults.
Record t : Type := mk {
  Congress : string;
  Chamber : string;
  ResultCount : int;
  Offset : int;
  Members : list Member.t
}.
Definition zero : t := mk "" "" 0%Z 0%Z [].
End getMembersResults.

Module getMembersResponse.
Record t : Type := mk {
  Status : string;
  Copyright : string;
  Results : list getMembersResults.t
}.
Definition zero : t := mk "" "" [].
End getMembersResponse.

Section Methods.

Context {P : URLParser} {N : Net}.
Context {U_members : Unmarshaler getMembersResponse.t}.

Import fmt.

(* GetMembers fetches a list of members of a defined chamber of Congress
   ("house" or "senate") in a particular session (i.e. 115). *)
Definition GetMembers (c : Client.t) (congress : int) (chamber : string)
    : M (list Member.t * option error) :=
  let members : list Member.t := [] in
  req <-[members] http_NewRequest "GET"
        (Sprintf "%s/%d/%s/members.json" [S (Client.Endpoint c); D congress; S chamber]) ;;
  let req := http.Header_Add req "X-API-Key" (Client.Key c) in
  resp <-[members] client_Do req ;;
  body <-[members] ioutil_ReadAll (http.Body resp) ;;
  unmarshaled <-[members] json_Unmarshal (T := getMembersResponse.t) body ;;
  let members :=
    if (0 <? len (getMembersResponse.Results unmarshaled))%nat
    then getMembersResults.Members
           (nth 0 (getMembersResponse.Results unmarshaled) getMembersResults.zero)
    else members in
  ret (members, None).

End Methods.

End member_go.

(** ** More vocabulary for what a run shows *)

(** The operations that make one request; [GetMembersByState] makes two. *)
Definition single_request (op : Operation) : bool :=
  match op with
  | OpGetMembersByState _ => false
  | _ => true
  end.

(** The URLs [http.NewRequest] accepts. *)
Definition accepted {P : URLParser} (url : string) : bool :=
  match url_error url with
  | None => true
  | Some _ => false
  end.

(** Of the answers received, the bodies that could be read to the end. *)
Definition readable (answers : list (string + http.ReadCloser)) : list bytes :=
  flat_map (fun answer =>
    match answer with
    | inr (http.mkBody data None) => [data]
    | _ => []
    end) answers.

(** What a run of a family of requests keeps to: it decodes the bodies it
    could read and nothing else, sends no more requests than it has URLs,
    has sent them all when it succeeds, and owes a decode error to the last
    body it decoded. *)
Definition summary (c : Client.t) (us : list string)
    (bad : bytes -> string -> Prop) (err : option error) (evs : list Event)
    : Prop :=
  decoded evs = readable (received evs) /\
  length (sent evs) <= length us /\
  (err = None ->
   sent evs = map (api_request c) us /\ constructed evs = us /\
   length (decoded evs) = length us) /\
  (forall msg, err = Some (DecodeError msg) ->
   exists bodies body, decoded evs = (bodies ++ [body])%list /\ bad body msg).

Section Envelopes.

Context {U_members : Unmarshaler getMembersResponse.t}.
Context {U_member : Unmarshaler getMemberResponse.t}.
Context {U_state : Unmarshaler getMembersByStateResponse.t}.
Context {U_transition : Unmarshaler getMembersInTransitionResponse.t}.

(** Two bodies that decode to envelopes of the operation with the same
    [results]; the other fields of the envelopes may differ. *)
Definition same_results (op : Operation) (body1 body2 : bytes) : Prop :=
  match op with
  | OpGetMembers _ _ =>
      match unmarshal body1, unmarshal body2 with
      | inr e1, inr e2 =>
          getMembersResponse.Results e1 = getMembersResponse.Results e2
      | _, _ => False
      end
  | OpGetMember _ =>
      match unmarshal body1, unmarshal body2 with
      | inr e1, inr e2 =>
          getMemberResponse.Results e1 = getMemberResponse.Results e2
      | _, _ => False
      end
  | OpGetChamberMembersByState _ _ | OpGetMembersByState _
  | OpGetChamberMembersByDistrict _ _ _ =>
      match unmarshal body1, unmarshal body2 with
      | inr e1, inr e2 =>
          getMembersByStateResponse.Results e1 = getMembersByStateResponse.Results e2
      | _, _ => False
      end
  | OpGetNewMembers | OpGetDepartingMembers _ _ =>
      match unmarshal body1, unmarshal body2 with
      | inr e1, inr e2 =>
          getMembersInTransitionResponse.Results e1
          = getMembersInTransitionResponse.Results e2
      | _, _ => False
      end
  end.

End Envelopes.

(** A second test environment, for the earlier revision and for a body that
    breaks off. *)
Module MockMember.

Definition member (id first_name : string) : member_go.Member.t :=
  member_go.Member.mk id "" "" first_name "" "" "" "" "" "" "" "" "" false "" ""
    0%Z 0%Z 0%Z "" "" "" "" "" float32_zero float32_zero "" "" "" "" "" "" ""
    "" "" "" float32_zero "" "" "" "" "".

#[export] Instance members_decoder : Unmarshaler member_go.getMembersResponse.t :=
  Mock.from_table
    [ (Mock.senate_115,
       member_go.getMembersResponse.mk "" ""
         [member_go.getMembersResults.mk "" "" 0%Z 0%Z [member "K000388" "Amy"]]);
      (Mock.senate_115_paged,
       member_go.getMembersResponse.mk "" ""
         [member_go.getMembersResults.mk "" "" 0%Z 0%Z [member "K000388" "Amy"];
          member_go.getMembersResults.mk "" "" 0%Z 0%Z [member "S000033" "Bernard"]]);
      (Mock.empty, member_go.getMembersResponse.mk "OK" "" []) ].

(** A response whose body breaks off after [text]. *)
Definition cut (status : int) (text : string) : string + http.Response :=
  inr (http.mkResponse status (http.mkBody (Mock.json text) (Some "unexpected EOF"))).

(** One member with a name, for [GetMember]. *)
Definition klobuchar : MemberDetails.t :=
  MemberDetails.mk
    (Member.mk "Amy" "" "Klobuchar" "" "" "" "" "" TrackingIDs.zero)
    "K000388" "" "" "" "" false "" "" "" [] TrackingIDs.zero.

Definition one_member : string :=
  "{'results':[{'member_id':'K000388','first_name':'Amy','last_name':'Klobuchar'},{'member_id':'S000033'}]}".

Definition sanders : MemberDetails.t :=
  MemberDetails.mk Member.zero "S000033" "" "" "" "" false "" "" "" []
    TrackingIDs.zero.

Definition member_decoder : Unmarshaler getMemberResponse.t :=
  Mock.from_table
    [ (one_member, getMemberResponse.mk "" "" [klobuchar; sanders]) ].

(** What the API answers when it has no such record: an envelope with a
    status, a list of errors and no results. *)
Definition not_found : string :=
  "{'status':'ERROR','errors':[{'error':'Record not found'}]}".

Definition transition_decoder : Unmarshaler getMembersInTransitionResponse.t :=
  Mock.from_table
    [ (Mock.empty, getMembersInTransitionResponse.mk "OK" "" []);
      (not_found, getMembersInTransitionResponse.mk "ERROR" "" []) ].

End MockMember.

Unset Implicit Arguments.

(** ** The request and response cycle *)

Section Cycle.

Local Open Scope list_scope.

Context {P : URLParser} {N : Net}.

(** What [execute] does, case by case. *)
Lemma execute_run {T R} {U : Unmarshaler T} (c : Client.t) (url : string)
    (zero : R) (unwrap : T -> R) (s : State) :
  execute c url zero unwrap s =
    match url_error url with
    | Some msg =>
        ((zero, Some (TransportError msg)),
         mkState (world s) (trace s ++ [EvNewRequest "GET" url]))
    | None =>
        let (answer, w') := round_trip (api_request c url) (world s) in
        let tr := trace s ++ [EvNewRequest "GET" url; EvDo (api_request c url) answer] in
        match answer with
        | inl msg => ((zero, Some (TransportError msg)), mkState w' tr)
        | inr resp =>
            match http.failure (http.Body resp) with
            | Some msg =>
                ((zero, Some (TransportError msg)), mkState w' (tr ++ [EvReadAll]))
            | None =>
                let body := http.data (http.Body resp) in
                let tr' := tr ++ [EvReadAll; EvUnmarshal body] in
                match unmarshal body with
                | inl msg => ((zero, Some (DecodeError msg)), mkState w' tr')
                | inr v => ((unwrap v, None), mkState w' tr')
                end
            end
        end
    end.
Proof.
  unfold execute, check, bind, http_NewRequest, client_Do, ioutil_ReadAll,
    json_Unmarshal, emit, ret, api_request, http.Header_Add; simpl.
  destruct (url_error url) as [msg|]; [reflexivity|]; simpl.
  destruct (round_trip _ _) as [[msg|resp] w']; simpl;
    rewrite <- ?app_assoc; simpl; [reflexivity|].
  destruct (http.failure (http.Body resp)) as [msg|]; simpl;
    rewrite <- ?app_assoc; simpl; [reflexivity|].
  destruct (unmarshal _) as [msg|v]; reflexivity.
Qed.

(** [execute] depends on the unwrapping only through its values. *)
Lemma execute_ext {T R} {U : Unmarshaler T} (c : Client.t) (url : string)
    (zero : R) (f g : T -> R) (s : State) :
  (forall v, f v = g v) ->
  execute c url zero f s = execute c url zero g s.
Proof.
  intros Hfg. rewrite !execute_run.
  destruct (url_error url); [reflexivity|].
  destruct (round_trip _ _) as [[msg|resp] w']; [reflexivity|].
  destruct (http.failure _); [reflexivity|]. cbv zeta.
  destruct (unmarshal _); [reflexivity|]. now rewrite Hfg.
Qed.

End Cycle.

(** ** Every single-request method is the cycle with an unwrap strategy *)

Section Strategies.

Context {P : URLParser} {N : Net}.
Context {U_members : Unmarshaler getMembersResponse.t}.
Context {U_member : Unmarshaler getMemberResponse.t}.
Context {U_state : Unmarshaler getMembersByStateResponse.t}.
Context {U_transition : Unmarshaler getMembersInTransitionResponse.t}.

Local Open Scope list_scope.

Lemma GetMembers_execute c congress chamber s :
  GetMembers c congress chamber s =
  execute c (Client.Endpoint c ++ Spec.path_members congress chamber)%string []
    (fun e => Spec.first_group getMembersResults.Members
                (getMembersResponse.Results e)) s.
Proof.
  unfold GetMembers. apply execute_ext.
  intros v. now destruct (getMembersResponse.Results v).
Qed.

Lemma GetMember_execute c id s :
  GetMember c id s =
  execute c (Client.Endpoint c ++ Spec.path_member id)%string MemberDetails.zero
    (fun e => Spec.first_single MemberDetails.zero (getMemberResponse.Results e)) s.
Proof.
  unfold GetMember. apply execute_ext.
  intros v. now destruct (getMemberResponse.Results v).
Qed.

Lemma GetChamberMembersByState_execute c state chamber s :
  GetChamberMembersByState c state chamber s =
  execute c (Client.Endpoint c ++ Spec.path_state chamber state)%string []
    (fun e => Spec.direct_list (getMembersByStateResponse.Results e)) s.
Proof. reflexivity. Qed.

Lemma GetChamberMembersByDistrict_execute c state district chamber s :
  GetChamberMembersByDistrict c state district chamber s =
  execute c (Client.Endpoint c ++ Spec.path_district chamber state district)%string []
    (fun e => Spec.direct_list (getMembersByStateResponse.Results e)) s.
Proof. reflexivity. Qed.

Lemma GetNewMembers_execute c s :
  GetNewMembers c s =
  execute c (Client.Endpoint c ++ Spec.path_new)%string []
    (fun e => Spec.first_group getMembersInTransitionResults.Members
                (getMembersInTransitionResponse.Results e)) s.
Proof.
  unfold GetNewMembers. apply execute_ext.
  intros v. now destruct (getMembersInTransitionResponse.Results v).
Qed.

(** [GetDepartingMembers] concatenates the groups at indices 0 and 1. *)
Lemma GetDepartingMembers_execute c congress chamber s :
  GetDepartingMembers c congress chamber s =
  execute c (Client.Endpoint c ++ Spec.path_leaving congress chamber)%string []
    (fun e => Spec.all_groups_concatenated getMembersInTransitionResults.Members
                (firstn 2 (getMembersInTransitionResponse.Results e))) s.
Proof.
  unfold GetDepartingMembers. apply execute_ext.
  intros v. destruct (getMembersInTransitionResponse.Results v) as [|g0 [|g1 rest]];
    cbn; rewrite ?app_nil_r; reflexivity.
Qed.

End Strategies.

(** ** The unwrap strategies *)

Section Unwrapping.

Context {P : URLParser} {N : Net}.
Context {U_members : Unmarshaler getMembersResponse.t}.
Context {U_member : Unmarshaler getMemberResponse.t}.
Context {U_state : Unmarshaler getMembersByStateResponse.t}.
Context {U_transition : Unmarshaler getMembersInTransitionResponse.t}.

Local Open Scope list_scope.

(** A delivered body that decodes is unwrapped and returned without error,
    and the run ends in the world the network call left. *)
Lemma execute_delivered {T R} {U : Unmarshaler T} c url (zero : R)
    (unwrap : T -> R) s body w' v :
  delivers c url (world s) body w' ->
  unmarshal body = inr v ->
  fst (execute c url zero unwrap s) = (unwrap v, None) /\
  world (snd (execute c url zero unwrap s)) = w'.
Proof.
  intros [Hurl [status Hdo]] Hdec. rewrite execute_run, Hurl, Hdo. simpl.
  rewrite Hdec. split; reflexivity.
Qed.

(** C3: with the direct-list strategy ([GetChamberMembersByState] and
    [GetChamberMembersByDistrict]) a well-formed envelope yields exactly its
    [results] list: the same entities in the same order, none dropped and
    none duplicated, and no error. *)
Theorem direct_list_returns_results
    (c : Client.t) (state chamber : string) (district : int) (s : State)
    (w' : World) (body : bytes) (envelope : getMembersByStateResponse.t) :
  unmarshal body = inr envelope ->
  (delivers c (Client.Endpoint c ++ Spec.path_state chamber state)%string
     (world s) body w' ->
   fst (GetChamberMembersByState c state chamber s)
   = (getMembersByStateResponse.Results envelope, None))
  /\
  (delivers c (Client.Endpoint c ++ Spec.path_district chamber state district)%string
     (world s) body w' ->
   fst (GetChamberMembersByDistrict c state district chamber s)
   = (getMembersByStateResponse.Results envelope, None)).
Proof.
  intros Hdec; split; intros Hnet.
  - rewrite GetChamberMembersByState_execute.
    now erewrite (proj1 (execute_delivered _ _ _ _ _ _ _ _ Hnet Hdec)).
  - rewrite GetChamberMembersByDistrict_execute.
    now erewrite (proj1 (execute_delivered _ _ _ _ _ _ _ _ Hnet Hdec)).
Qed.

(** C4: with the first-group strategy ([GetMembers] and [GetNewMembers]) a
    well-formed envelope yields exactly the members of its first [results]
    group, whatever groups follow. *)
Theorem first_group_returns_first_members
    (c : Client.t) (congress : int) (chamber : string) (s : State)
    (w' : World) (body : bytes) :
  (forall envelope group rest,
     unmarshal body = inr envelope ->
     getMembersResponse.Results envelope = group :: rest ->
     delivers c (Client.Endpoint c ++ Spec.path_members congress chamber)%string
       (world s) body w' ->
     fst (GetMembers c congress chamber s)
     = (getMembersResults.Members group, None))
  /\
  (forall envelope group rest,
     unmarshal body = inr envelope ->
     getMembersInTransitionResponse.Results envelope = group :: rest ->
     delivers c (Client.Endpoint c ++ Spec.path_new)%string (world s) body w' ->
     fst (GetNewMembers c s)
     = (getMembersInTransitionResults.Members group, None)).
Proof.
  split; intros envelope group rest Hdec Hres Hnet.
  - rewrite GetMembers_execute.
    erewrite (proj1 (execute_delivered _ _ _ _ _ _ _ _ Hnet Hdec)).
    now rewrite Hres.
  - rewrite GetNewMembers_execute.
    erewrite (proj1 (execute_delivered _ _ _ _ _ _ _ _ Hnet Hdec)).
    now rewrite Hres.
Qed.

(** C2, as the code has it: [GetDepartingMembers] returns the members of the
    first two groups of a well-formed envelope, in group order and in their
    order within each group; this is every group when there are at most
    two, and groups after the second are left out. *)
Theorem GetDepartingMembers_first_two_groups
    (c : Client.t) (congress : int) (chamber : string) (s : State)
    (w' : World) (body : bytes) (envelope : getMembersInTransitionResponse.t) :
  unmarshal body = inr envelope ->
  delivers c (Client.Endpoint c ++ Spec.path_leaving congress chamber)%string
    (world s) body w' ->
  let groups := getMembersInTransitionResponse.Results envelope in
  fst (GetDepartingMembers c congress chamber s)
  = (concat (map getMembersInTransitionResults.Members (firstn 2 groups)), None)
  /\
  (len groups <= 2 ->
   fst (GetDepartingMembers c congress chamber s)
   = (Spec.all_groups_concatenated getMembersInTransitionResults.Members groups,
      None)).
Proof.
  intros Hdec Hnet groups.
  rewrite GetDepartingMembers_execute.
  erewrite (proj1 (execute_delivered _ _ _ _ _ _ _ _ Hnet Hdec)).
  split; [reflexivity|].
  intros Hlen. fold groups. now rewrite firstn_all2.
Qed.

(** C10: on a well-formed envelope with empty [results], [GetMember] returns
    the zero [MemberDetails] and a nil error; an envelope whose first result
    is a member with every field empty gives the very same answer. *)
Theorem GetMember_empty_results_zero
    (c : Client.t) (id : string) (s : State) (w' : World) (body : bytes)
    (envelope : getMemberResponse.t) :
  unmarshal body = inr envelope ->
  getMemberResponse.Results envelope = [] ->
  delivers c (Client.Endpoint c ++ Spec.path_member id)%string (world s) body w' ->
  fst (GetMember c id s) = (MemberDetails.zero, None)
  /\
  (forall s2 w2' body2 envelope2 rest,
     unmarshal body2 = inr envelope2 ->
     getMemberResponse.Results envelope2 = MemberDetails.zero :: rest ->
     delivers c (Client.Endpoint c ++ Spec.path_member id)%string
       (world s2) body2 w2' ->
     fst (GetMember c id s2) = fst (GetMember c id s)).
Proof.
  intros Hdec Hres Hnet.
  assert (Hzero : fst (GetMember c id s) = (MemberDetails.zero, None)).
  { rewrite GetMember_execute.
    erewrite (proj1 (execute_delivered _ _ _ _ _ _ _ _ Hnet Hdec)).
    now rewrite Hres. }
  split; [exact Hzero|].
  intros s2 w2' body2 envelope2 rest Hdec2 Hres2 Hnet2.
  rewrite Hzero, GetMember_execute.
  erewrite (proj1 (execute_delivered _ _ _ _ _ _ _ _ Hnet2 Hdec2)).
  now rewrite Hres2.
Qed.

End Unwrapping.

(** ** Failures, and the composite *)

Section Failures.

Context {P : URLParser} {N : Net}.
Context {U_members : Unmarshaler getMembersResponse.t}.
Context {U_member : Unmarshaler getMemberResponse.t}.
Context {U_state : Unmarshaler getMembersByStateResponse.t}.
Context {U_transition : Unmarshaler getMembersInTransitionResponse.t}.

Local Open Scope list_scope.

(** A failed cycle returns the named result as it started. *)
Lemma execute_error_zero {T R} {U : Unmarshaler T} c url (zero : R)
    (unwrap : T -> R) s r e :
  fst (execute c url zero unwrap s) = (r, Some e) -> r = zero.
Proof.
  rewrite execute_run.
  destruct (url_error url); [simpl; congruence|].
  destruct (round_trip _ _) as [[msg|resp] w']; [simpl; congruence|].
  destruct (http.failure _); [simpl; congruence|]. cbv zeta.
  destruct (unmarshal _); simpl; congruence.
Qed.

Lemma execute_refused {T R} {U : Unmarshaler T} c url (zero : R)
    (unwrap : T -> R) s msg w' :
  refuses c url (world s) msg w' ->
  execute c url zero unwrap s
  = ((zero, Some (TransportError msg)),
     mkState w' (trace s ++ [EvNewRequest "GET" url;
                             EvDo (api_request c url) (inl msg)])).
Proof.
  intros [Hurl Hdo]. now rewrite execute_run, Hurl, Hdo.
Qed.

Lemma execute_malformed {T R} {U : Unmarshaler T} c url (zero : R)
    (unwrap : T -> R) s body w' msg :
  delivers c url (world s) body w' ->
  unmarshal body = inl msg ->
  fst (execute c url zero unwrap s) = (zero, Some (DecodeError msg)).
Proof.
  intros [Hurl [status Hdo]] Hdec. rewrite execute_run, Hurl, Hdo. simpl.
  now rewrite Hdec.
Qed.

(** The composite, in terms of its two calls. *)
Lemma GetMembersByState_run c state s :
  GetMembersByState c state s =
    let '(members, err, s1) := GetChamberMembersByState c state "house" s in
    match err with
    | Some _ => (members, err, s1)
    | None =>
        let '(senate, err, s2) := GetChamberMembersByState c state "senate" s1 in
        match err with
        | Some _ => (members, err, s2)
        | None => (members ++ senate, None, s2)
        end
    end.
Proof.
  unfold GetMembersByState, bind, ret.
  destruct (GetChamberMembersByState c state "house" s) as [[members [e|]] s1];
    [reflexivity|].
  destruct (GetChamberMembersByState c state "senate" s1) as [[senate [e|]] s2];
    reflexivity.
Qed.

(** C1, as the code has it: when the house call fails, [GetMembersByState]
    fails with its error, returns no entities and does not make the senate
    call; when the house call succeeds and the senate call fails, it fails
    with the error of the senate call and the list it returns with that
    error is the list of the house call; when both succeed it returns the
    house entities followed by the senate entities. *)
Theorem GetMembersByState_outcome
    (c : Client.t) (state : string) (s s1 s2 : State)
    (house senate : list MemberSearch.t) (house_err senate_err : option error) :
  GetChamberMembersByState c state "house" s = (house, house_err, s1) ->
  GetChamberMembersByState c state "senate" s1 = (senate, senate_err, s2) ->
  GetMembersByState c state s =
    match house_err, senate_err with
    | Some e, _ => ([], Some e, s1)
    | None, Some e => (house, Some e, s2)
    | None, None => (house ++ senate, None, s2)
    end.
Proof.
  intros Hhouse Hsenate. rewrite GetMembersByState_run, Hhouse.
  destruct house_err as [e|].
  - assert (house = []) as ->; [|reflexivity].
    apply (f_equal fst) in Hhouse. simpl in Hhouse.
    rewrite GetChamberMembersByState_execute in Hhouse.
    exact (execute_error_zero _ _ _ _ _ _ _ Hhouse).
  - rewrite Hsenate. now destruct senate_err.
Qed.

Lemma fst_tagged {A} (tag : A -> Result) (m : M (A * option error)) s :
  fst (tagged tag m s) = (tag (fst (fst (m s))), snd (fst (m s))).
Proof. unfold tagged, bind, ret. now destruct (m s) as [[a e] s']. Qed.

Lemma snd_tagged {A} (tag : A -> Result) (m : M (A * option error)) s :
  snd (tagged tag m s) = snd (m s).
Proof. unfold tagged, bind, ret. now destruct (m s) as [[a e] s']. Qed.

(** C6, as the code has it: when a body does not decode into the envelope
    of the operation that receives it, the operation fails with the decode
    error.  It returns no entities when that body answers its first request,
    which is the only one of the six single-request operations and the
    house request of [GetMembersByState]; when the house body is well formed
    and the body that does not decode is the senate body,
    [GetMembersByState] returns the house results with the decode error. *)
Theorem malformed_body_decode_error
    (c : Client.t) (op : Operation) (s : State) (body : bytes) (w' : World)
    (msg : string) :
  malformed op body msg ->
  (delivers c (first_url c op) (world s) body w' ->
   fst (invoke c op s) = (nothing op, Some (DecodeError msg)))
  /\
  (forall state house w1 envelope,
     op = OpGetMembersByState state ->
     delivers c (Client.Endpoint c ++ Spec.path_state "house" state)%string
       (world s) house w1 ->
     unmarshal house = inr envelope ->
     delivers c (Client.Endpoint c ++ Spec.path_state "senate" state)%string
       w1 body w' ->
     fst (invoke c op s)
     = (Searches (getMembersByStateResponse.Results envelope),
        Some (DecodeError msg))).
Proof.
  intros Hbad. split.
  - intros Hnet.
    destruct op; cbn [invoke malformed nothing] in *; rewrite fst_tagged;
      unfold first_url in Hnet; cbn [paths hd] in Hnet.
    + rewrite GetMembers_execute.
      now rewrite (execute_malformed _ _ _ _ _ _ _ _ Hnet Hbad).
    + rewrite GetMember_execute.
      now rewrite (execute_malformed _ _ _ _ _ _ _ _ Hnet Hbad).
    + rewrite GetChamberMembersByState_execute.
      now rewrite (execute_malformed _ _ _ _ _ _ _ _ Hnet Hbad).
    + rewrite GetMembersByState_run,
        (surjective_pairing (GetChamberMembersByState _ _ _ _)),
        (surjective_pairing (fst (GetChamberMembersByState _ _ _ _))).
      rewrite GetChamberMembersByState_execute.
      now rewrite (execute_malformed _ _ _ _ _ _ _ _ Hnet Hbad).
    + rewrite GetChamberMembersByDistrict_execute.
      now rewrite (execute_malformed _ _ _ _ _ _ _ _ Hnet Hbad).
    + rewrite GetNewMembers_execute.
      now rewrite (execute_malformed _ _ _ _ _ _ _ _ Hnet Hbad).
    + rewrite GetDepartingMembers_execute.
      now rewrite (execute_malformed _ _ _ _ _ _ _ _ Hnet Hbad).
  - intros state house w1 envelope -> Hnet1 Hdec1 Hnet2.
    cbn [invoke malformed] in *. rewrite fst_tagged, GetMembersByState_run.
    destruct (GetChamberMembersByState c state "house" s)
      as [[members err] s1] eqn:Hhouse.
    rewrite GetChamberMembersByState_execute in Hhouse.
    destruct (execute_delivered _ _ [] (fun e => Spec.direct_list
      (getMembersByStateResponse.Results e)) s _ _ _ Hnet1 Hdec1) as [Hr Hw].
    rewrite Hhouse in Hr, Hw. simpl in Hr, Hw.
    injection Hr as -> ->. subst w1.
    destruct (GetChamberMembersByState c state "senate" s1)
      as [[senate err] s2] eqn:Hsenate.
    rewrite GetChamberMembersByState_execute in Hsenate.
    pose proof (execute_malformed _ _ [] (fun e => Spec.direct_list
      (getMembersByStateResponse.Results e)) s1 _ _ _ Hnet2 Hbad) as Hr2.
    rewrite Hsenate in Hr2. simpl in Hr2.
    now injection Hr2 as -> ->.
Qed.

End Failures.

(** ** What a run asks of the libraries *)

Section Traces.

Context {P : URLParser} {N : Net}.
Context {U_members : Unmarshaler getMembersResponse.t}.
Context {U_member : Unmarshaler getMemberResponse.t}.
Context {U_state : Unmarshaler getMembersByStateResponse.t}.
Context {U_transition : Unmarshaler getMembersInTransitionResponse.t}.

Local Open Scope list_scope.

Lemma decoded_app tr1 tr2 : decoded (tr1 ++ tr2) = decoded tr1 ++ decoded tr2.
Proof. apply flat_map_app. Qed.

(** A delivered body that decodes is the one body the cycle decodes. *)
Lemma execute_delivered_decoded {T R} {U : Unmarshaler T} c url (zero : R)
    (unwrap : T -> R) s body w' v :
  delivers c url (world s) body w' ->
  unmarshal body = inr v ->
  decoded (trace (snd (execute c url zero unwrap s)))
  = decoded (trace s) ++ [body].
Proof.
  intros [Hurl [status Hdo]] Hdec. rewrite execute_run, Hurl, Hdo. simpl.
  rewrite Hdec. simpl. rewrite !decoded_app. simpl. now rewrite app_nil_r.
Qed.

(** C7, as the code has it: when a network call of an operation fails, the
    operation fails with the transport error.  When the call is its first,
    which is the only one of the six single-request operations and the
    house call of [GetMembersByState], nothing is given to [json.Unmarshal]
    and no entities are returned; when the house call is answered with a
    well-formed envelope and the senate call fails, the house body is the
    one body that has been decoded and [GetMembersByState] returns the
    house results with the transport error. *)
Theorem network_failure_no_decode
    (c : Client.t) (op : Operation) (s : State) (msg : string) (w' : World) :
  (refuses c (first_url c op) (world s) msg w' ->
   fst (invoke c op s) = (nothing op, Some (TransportError msg)) /\
   decoded (trace (snd (invoke c op s))) = decoded (trace s))
  /\
  (forall state house w1 envelope,
     op = OpGetMembersByState state ->
     delivers c (Client.Endpoint c ++ Spec.path_state "house" state)%string
       (world s) house w1 ->
     unmarshal house = inr envelope ->
     refuses c (Client.Endpoint c ++ Spec.path_state "senate" state)%string
       w1 msg w' ->
     fst (invoke c op s)
     = (Searches (getMembersByStateResponse.Results envelope),
        Some (TransportError msg)) /\
     decoded (trace (snd (invoke c op s))) = decoded (trace s) ++ [house]).
Proof.
  split.
  - intros Hnet.
    destruct op; cbn [invoke nothing]; rewrite fst_tagged, snd_tagged;
      unfold first_url in Hnet; cbn [paths hd] in Hnet.
    + rewrite GetMembers_execute, (execute_refused _ _ _ _ _ _ _ Hnet); simpl.
      now rewrite decoded_app, app_nil_r.
    + rewrite GetMember_execute, (execute_refused _ _ _ _ _ _ _ Hnet); simpl.
      now rewrite decoded_app, app_nil_r.
    + rewrite GetChamberMembersByState_execute,
        (execute_refused _ _ _ _ _ _ _ Hnet); simpl.
      now rewrite decoded_app, app_nil_r.
    + rewrite GetMembersByState_run, GetChamberMembersByState_execute,
        (execute_refused _ _ _ _ _ _ _ Hnet); simpl.
      now rewrite decoded_app, app_nil_r.
    + rewrite GetChamberMembersByDistrict_execute,
        (execute_refused _ _ _ _ _ _ _ Hnet); simpl.
      now rewrite decoded_app, app_nil_r.
    + rewrite GetNewMembers_execute, (execute_refused _ _ _ _ _ _ _ Hnet); simpl.
      now rewrite decoded_app, app_nil_r.
    + rewrite GetDepartingMembers_execute,
        (execute_refused _ _ _ _ _ _ _ Hnet); simpl.
      now rewrite decoded_app, app_nil_r.
  - intros state house w1 envelope -> Hnet1 Hdec1 Hnet2.
    cbn [invoke]. rewrite fst_tagged, snd_tagged, GetMembersByState_run.
    pose proof (execute_delivered_decoded c _ [] (fun e => Spec.direct_list
      (getMembersByStateResponse.Results e)) s _ _ _ Hnet1 Hdec1) as Hd.
    destruct (execute_delivered _ _ [] (fun e => Spec.direct_list
      (getMembersByStateResponse.Results e)) s _ _ _ Hnet1 Hdec1) as [Hr Hw].
    rewrite <- GetChamberMembersByState_execute in Hd, Hr, Hw.
    destruct (GetChamberMembersByState c state "house" s)
      as [[members err] s1].
    simpl in Hd, Hr, Hw. injection Hr as -> ->. subst w1.
    rewrite GetChamberMembersByState_execute,
      (execute_refused _ _ _ _ _ _ _ Hnet2).
    simpl. split; [reflexivity|].
    now rewrite decoded_app, Hd, app_nil_r.
Qed.

(** The composite on two well-formed envelopes: the house results followed
    by the senate results. *)
Lemma GetMembersByState_delivered c state s body1 w1 e1 body2 w2 e2 :
  delivers c (Client.Endpoint c ++ Spec.path_state "house" state)%string
    (world s) body1 w1 ->
  unmarshal body1 = inr e1 ->
  delivers c (Client.Endpoint c ++ Spec.path_state "senate" state)%string
    w1 body2 w2 ->
  unmarshal body2 = inr e2 ->
  fst (GetMembersByState c state s)
  = (getMembersByStateResponse.Results e1 ++ getMembersByStateResponse.Results e2,
     None).
Proof.
  intros Hnet1 Hdec1 Hnet2 Hdec2. rewrite GetMembersByState_run.
  destruct (GetChamberMembersByState c state "house" s)
    as [[members err] s1] eqn:Hhouse.
  rewrite GetChamberMembersByState_execute in Hhouse.
  destruct (execute_delivered _ _ [] (fun e => Spec.direct_list
    (getMembersByStateResponse.Results e)) s _ _ _ Hnet1 Hdec1) as [Hr Hw].
  rewrite Hhouse in Hr, Hw. simpl in Hr, Hw.
  injection Hr as -> ->. subst w1.
  destruct (GetChamberMembersByState c state "senate" s1)
    as [[senate err] s2] eqn:Hsenate.
  rewrite GetChamberMembersByState_execute in Hsenate.
  destruct (execute_delivered _ _ [] (fun e => Spec.direct_list
    (getMembersByStateResponse.Results e)) s1 _ _ _ Hnet2 Hdec2) as [Hr2 _].
  rewrite Hsenate in Hr2. simpl in Hr2.
  now injection Hr2 as -> ->.
Qed.

(** From a well-formed body to the envelope it decodes to. *)
Ltac envelope H :=
  unfold well_formed, empty_envelope, results_len in H;
  match type of H with
  | context [unmarshal ?body] =>
      let e := fresh "e" in
      let Hdec := fresh "Hdec" in
      destruct (unmarshal body) as [?|e] eqn:Hdec; [congruence|];
      try (injection H as H; apply length_zero_iff_nil in H)
  end.

(** C5: when every request of a list-returning operation is answered with
    a well-formed envelope whose [results] are empty, the operation returns
    the empty list and no error; and no well-formed envelope, whatever its
    nesting, makes an operation fail. *)
Theorem empty_results_empty_list
    (c : Client.t) (op : Operation) (s : State) :
  (returns_list op = true ->
   serves c (empty_envelope op) (urls c op) (world s) ->
   fst (invoke c op s) = (nothing op, None))
  /\
  (serves c (well_formed op) (urls c op) (world s) ->
   snd (fst (invoke c op s)) = None).
Proof.
  split.
  - intros Hlist Hnet.
    destruct op; try discriminate Hlist;
      cbn [invoke nothing urls paths map serves] in *;
      rewrite fst_tagged;
      destruct Hnet as (body & w' & Hnet & Hres & Hrest); envelope Hres.
    + rewrite GetMembers_execute,
        (proj1 (execute_delivered _ _ _ _ _ _ _ _ Hnet Hdec)).
      now rewrite Hres.
    + rewrite GetChamberMembersByState_execute,
        (proj1 (execute_delivered _ _ _ _ _ _ _ _ Hnet Hdec)).
      now rewrite Hres.
    + destruct Hrest as (body2 & w2' & Hnet2 & Hres2 & _). envelope Hres2.
      rewrite (GetMembersByState_delivered _ _ _ _ _ _ _ _ _ Hnet Hdec Hnet2 Hdec0).
      now rewrite Hres, Hres2.
    + rewrite GetChamberMembersByDistrict_execute,
        (proj1 (execute_delivered _ _ _ _ _ _ _ _ Hnet Hdec)).
      now rewrite Hres.
    + rewrite GetNewMembers_execute,
        (proj1 (execute_delivered _ _ _ _ _ _ _ _ Hnet Hdec)).
      now rewrite Hres.
    + rewrite GetDepartingMembers_execute,
        (proj1 (execute_delivered _ _ _ _ _ _ _ _ Hnet Hdec)).
      now rewrite Hres.
  - intros Hnet.
    destruct op; cbn [invoke urls paths map serves] in *;
      rewrite fst_tagged; cbn [snd];
      destruct Hnet as (body & w' & Hnet & Hwf & Hrest); envelope Hwf.
    + now rewrite GetMembers_execute,
        (proj1 (execute_delivered _ _ _ _ _ _ _ _ Hnet Hdec)).
    + now rewrite GetMember_execute,
        (proj1 (execute_delivered _ _ _ _ _ _ _ _ Hnet Hdec)).
    + now rewrite GetChamberMembersByState_execute,
        (proj1 (execute_delivered _ _ _ _ _ _ _ _ Hnet Hdec)).
    + destruct Hrest as (body2 & w2' & Hnet2 & Hwf2 & _). envelope Hwf2.
      now rewrite (GetMembersByState_delivered _ _ _ _ _ _ _ _ _ Hnet Hdec Hnet2 Hdec0).
    + now rewrite GetChamberMembersByDistrict_execute,
        (proj1 (execute_delivered _ _ _ _ _ _ _ _ Hnet Hdec)).
    + now rewrite GetNewMembers_execute,
        (proj1 (execute_delivered _ _ _ _ _ _ _ _ Hnet Hdec)).
    + now rewrite GetDepartingMembers_execute,
        (proj1 (execute_delivered _ _ _ _ _ _ _ _ Hnet Hdec)).
Qed.

Lemma constructed_app tr1 tr2 :
  constructed (tr1 ++ tr2) = constructed tr1 ++ constructed tr2.
Proof. apply flat_map_app. Qed.

Lemma sent_app tr1 tr2 : sent (tr1 ++ tr2) = sent tr1 ++ sent tr2.
Proof. apply flat_map_app. Qed.

(** One cycle builds its URL and, when [http.NewRequest] accepts it, sends
    the keyed request for it; it cannot succeed otherwise. *)
Lemma execute_keyed {T R} {U : Unmarshaler T} c url (zero : R)
    (unwrap : T -> R) s :
  exists evs,
    trace (snd (execute c url zero unwrap s)) = trace s ++ evs /\
    constructed evs = [url] /\
    sent evs = map (api_request c) (filter accepted [url]) /\
    (snd (fst (execute c url zero unwrap s)) = None -> accepted url = true).
Proof.
  rewrite execute_run. unfold accepted. cbn [filter].
  destruct (url_error url) as [msg|].
  { eexists; split; [reflexivity|]. repeat split; try reflexivity.
    discriminate. }
  destruct (round_trip _ _) as [[msg|resp] w'].
  { eexists; split; [reflexivity|]. now repeat split. }
  destruct (http.failure _) as [msg|].
  { eexists; split; [simpl; rewrite <- app_assoc; reflexivity|].
    now repeat split. }
  cbv zeta. destruct (unmarshal _) as [msg|v];
    (eexists; split; [simpl; rewrite <- app_assoc; reflexivity|];
     now repeat split).
Qed.

(** One cycle, as a run of requests for a list of one URL. *)
Lemma execute_requests {T R} {U : Unmarshaler T} c url (zero : R)
    (unwrap : T -> R) s :
  exists evs,
    trace (snd (execute c url zero unwrap s)) = trace s ++ evs /\
    (exists n, 1 <= n /\ constructed evs = firstn n [url]) /\
    (exists m, sent evs = map (api_request c) (firstn m [url])) /\
    sent evs = map (api_request c) (filter accepted (constructed evs)).
Proof.
  destruct (execute_keyed c url zero unwrap s) as (evs & Htr & Hc & Hs & _).
  exists evs. split; [exact Htr|]. split; [|split].
  - exists 1. now rewrite Hc.
  - rewrite Hs. cbn [filter].
    destruct (accepted url); [exists 1|exists 0]; reflexivity.
  - now rewrite Hc.
Qed.

(** C8: the URLs an operation builds are, in order, the endpoint of the
    client followed by the paths of the operation, with the arguments
    inserted as they are, and it builds at least the first.  Every URL it
    builds that [http.NewRequest] accepts is sent, once and in that order,
    as a GET request for that URL carrying the key of the client in the
    X-API-Key header and nothing else; no other request is sent. *)
Theorem request_url_and_key (c : Client.t) (op : Operation) (s : State) :
  exists evs,
    trace (snd (invoke c op s)) = trace s ++ evs /\
    (exists n, 1 <= n /\ constructed evs = firstn n (urls c op)) /\
    (exists m, sent evs = map (api_request c) (firstn m (urls c op))) /\
    sent evs = map (api_request c) (filter accepted (constructed evs)).
Proof.
  destruct op; cbn [invoke urls paths map]; rewrite snd_tagged.
  - rewrite GetMembers_execute. apply execute_requests.
  - rewrite GetMember_execute. apply execute_requests.
  - rewrite GetChamberMembersByState_execute. apply execute_requests.
  - rewrite GetMembersByState_run.
    destruct (execute_keyed c
                (Client.Endpoint c ++ Spec.path_state "house" state)%string []
                (fun e => Spec.direct_list (getMembersByStateResponse.Results e)) s)
      as (evs1 & Htr1 & Hc1 & Hs1 & Hok1).
    rewrite <- GetChamberMembersByState_execute in Htr1, Hok1.
    destruct (GetChamberMembersByState c state "house" s)
      as [[members err] s1].
    cbn [fst snd] in Htr1, Hok1.
    destruct err as [e|].
    + exists evs1. split; [exact Htr1|]. split; [|split].
      * exists 1. now rewrite Hc1.
      * rewrite Hs1. cbn [filter].
        destruct (accepted _); [exists 1|exists 0]; reflexivity.
      * now rewrite Hc1.
    + specialize (Hok1 eq_refl).
      cbn [filter] in Hs1. rewrite Hok1 in Hs1. cbn [map] in Hs1.
      destruct (execute_keyed c
                  (Client.Endpoint c ++ Spec.path_state "senate" state)%string []
                  (fun e => Spec.direct_list (getMembersByStateResponse.Results e)) s1)
        as (evs2 & Htr2 & Hc2 & Hs2 & _).
      rewrite <- GetChamberMembersByState_execute in Htr2.
      destruct (GetChamberMembersByState c state "senate" s1)
        as [[senate err] s2].
      cbn [fst snd] in Htr2.
      exists (evs1 ++ evs2).
      assert (Htr : trace s2 = trace s ++ evs1 ++ evs2)
        by now rewrite Htr2, Htr1, app_assoc.
      split; [now destruct err|].
      rewrite constructed_app, sent_app, Hc1, Hc2, Hs1, Hs2.
      cbn [app filter]. rewrite Hok1.
      split; [|split].
      * exists 2. split; [lia|reflexivity].
      * destruct (accepted (Client.Endpoint c ++ Spec.path_state "senate" state));
          [exists 2|exists 1]; reflexivity.
      * now destruct (accepted (Client.Endpoint c ++ Spec.path_state "senate" state)).
  - rewrite GetChamberMembersByDistrict_execute. apply execute_requests.
  - rewrite GetNewMembers_execute. apply execute_requests.
  - rewrite GetDepartingMembers_execute. apply execute_requests.
Qed.

End Traces.

(** ** Two runs against two networks *)

Section TwoRuns.

Context {P : URLParser}.
Context {U_members : Unmarshaler getMembersResponse.t}.
Context {U_member : Unmarshaler getMemberResponse.t}.
Context {U_state : Unmarshaler getMembersByStateResponse.t}.
Context {U_transition : Unmarshaler getMembersInTransitionResponse.t}.
Variables N1 N2 : Net.

Local Open Scope list_scope.

Lemma received_app tr1 tr2 :
  received (tr1 ++ tr2) = received tr1 ++ received tr2.
Proof. apply flat_map_app. Qed.

Lemma app_same_length {A} (l1 l2 r1 r2 : list A) :
  length l1 = length l2 -> l1 ++ r1 = l2 ++ r2 -> l1 = l2 /\ r1 = r2.
Proof.
  revert l2. induction l1 as [|a l1 IH]; intros [|b l2] Hlen Heq;
    try discriminate Hlen.
  - now split.
  - injection Heq as -> Heq. injection Hlen as Hlen.
    destruct (IH l2 Hlen Heq) as [-> ->]. now split.
Qed.

(** The same cycle run against two networks: both runs receive as many
    answers, and when the answers agree up to the status code the results
    are the same. *)
Lemma execute_blind {T R} {U : Unmarshaler T} c url (zero : R)
    (unwrap : T -> R) (s1 : @State N1) (s2 : @State N2) :
  exists evs1 evs2,
    trace (snd (execute c url zero unwrap s1)) = trace s1 ++ evs1 /\
    trace (snd (execute c url zero unwrap s2)) = trace s2 ++ evs2 /\
    length (received evs1) = length (received evs2) /\
    (received evs1 = received evs2 ->
     fst (execute c url zero unwrap s1) = fst (execute c url zero unwrap s2)).
Proof.
  rewrite !execute_run.
  destruct (url_error url) as [msg|].
  { do 2 eexists. repeat split; reflexivity. }
  destruct (round_trip (api_request c url) (world s1)) as [a1 w1'].
  destruct (round_trip (api_request c url) (world s2)) as [a2 w2'].
  exists ([EvNewRequest "GET" url; EvDo (api_request c url) a1] ++
          match a1 with
          | inl _ => []
          | inr resp =>
              match http.failure (http.Body resp) with
              | Some _ => [EvReadAll]
              | None => [EvReadAll; EvUnmarshal (http.data (http.Body resp))]
              end
          end).
  exists ([EvNewRequest "GET" url; EvDo (api_request c url) a2] ++
          match a2 with
          | inl _ => []
          | inr resp =>
              match http.failure (http.Body resp) with
              | Some _ => [EvReadAll]
              | None => [EvReadAll; EvUnmarshal (http.data (http.Body resp))]
              end
          end).
  split; [|split; [|split]].
  - destruct a1 as [msg|resp]; [reflexivity|].
    destruct (http.failure _); [simpl; now rewrite <- app_assoc|].
    cbv zeta. destruct (unmarshal _); simpl; now rewrite <- app_assoc.
  - destruct a2 as [msg|resp]; [reflexivity|].
    destruct (http.failure _); [simpl; now rewrite <- app_assoc|].
    cbv zeta. destruct (unmarshal _); simpl; now rewrite <- app_assoc.
  - destruct a1 as [?|r1], a2 as [?|r2]; simpl;
      repeat match goal with
             | |- context [http.failure ?b] => destruct (http.failure b)
             end; reflexivity.
  - destruct a1 as [m1|r1], a2 as [m2|r2]; simpl.
    + intros H. injection H as ->. reflexivity.
    + destruct (http.failure (http.Body r2)); discriminate.
    + destruct (http.failure (http.Body r1)); discriminate.
    + intros H.
      assert (Hbody : http.Body r1 = http.Body r2).
      { destruct (http.failure (http.Body r1)), (http.failure (http.Body r2));
          simpl in H; congruence. }
      rewrite Hbody. destruct (http.failure (http.Body r2)); [reflexivity|].
      destruct (unmarshal _); reflexivity.
Qed.

(** C9: the status code is not looked at.  Two runs of an operation that
    receive the same answers apart from the status codes (the same failures
    of the network, the same response bodies) return the same entities and
    the same error. *)
Theorem status_code_not_inspected
    (c : Client.t) (op : Operation) (w1 : @World N1) (w2 : @World N2) :
  received (trace (snd (invoke c op (start w1))))
  = received (trace (snd (invoke c op (start w2)))) ->
  fst (invoke c op (start w1)) = fst (invoke c op (start w2)).
Proof.
  assert (Hone : forall {T A} {U : Unmarshaler T} url (zero : A) unwrap
                   (tag : A -> Result),
    received (trace (snd (execute c url zero unwrap (start w1))))
    = received (trace (snd (execute c url zero unwrap (start w2)))) ->
    (tag (fst (fst (execute c url zero unwrap (start w1)))),
     snd (fst (execute c url zero unwrap (start w1))))
    = (tag (fst (fst (execute c url zero unwrap (start w2)))),
       snd (fst (execute c url zero unwrap (start w2))))).
  { intros T A U url zero unwrap tag H.
    destruct (execute_blind c url zero unwrap (start w1) (start w2))
      as (evs1 & evs2 & Htr1 & Htr2 & _ & Hres).
    rewrite Htr1, Htr2 in H. simpl in H. now rewrite (Hres H). }
  destruct op; cbn [invoke]; rewrite !fst_tagged, !snd_tagged.
  - rewrite !GetMembers_execute. apply Hone.
  - rewrite !GetMember_execute. apply Hone.
  - rewrite !GetChamberMembersByState_execute. apply Hone.
  - clear Hone. rewrite !GetMembersByState_run.
    assert (Hblind : forall chamber (s1 : @State N1) (s2 : @State N2),
      exists evs1 evs2,
        trace (snd (GetChamberMembersByState c state chamber s1)) = trace s1 ++ evs1 /\
        trace (snd (GetChamberMembersByState c state chamber s2)) = trace s2 ++ evs2 /\
        length (received evs1) = length (received evs2) /\
        (received evs1 = received evs2 ->
         fst (GetChamberMembersByState c state chamber s1)
         = fst (GetChamberMembersByState c state chamber s2))).
    { intros chamber s1 s2.
      exact (execute_blind c
               (Client.Endpoint c ++ Spec.path_state chamber state)%string []
               (fun e => Spec.direct_list (getMembersByStateResponse.Results e))
               s1 s2). }
    destruct (Hblind "house"%string (start w1) (start w2))
      as (evs1 & evs2 & Htr1 & Htr2 & Hlen & Hres).
    destruct (GetChamberMembersByState c state "house" (start w1))
      as [[house1 err1] s1].
    destruct (GetChamberMembersByState c state "house" (start w2))
      as [[house2 err2] s2].
    simpl in Htr1, Htr2, Hres.
    destruct (Hblind "senate"%string s1 s2)
      as (evs1' & evs2' & Htr1' & Htr2' & Hlen' & Hres').
    destruct (GetChamberMembersByState c state "senate" s1)
      as [[senate1 serr1] s1'].
    destruct (GetChamberMembersByState c state "senate" s2)
      as [[senate2 serr2] s2'].
    simpl in Htr1', Htr2', Hres'.
    rewrite Htr1 in Htr1'. rewrite Htr2 in Htr2'.
    assert (Hsplit : forall t1 t2,
      received (evs1 ++ t1) = received (evs2 ++ t2) ->
      received evs1 = received evs2 /\ received t1 = received t2).
    { intros t1 t2 H. rewrite !received_app in H.
      now apply app_same_length. }
    destruct err1 as [e1|], err2 as [e2|]; simpl.
    + intros H. rewrite Htr1, Htr2 in H.
      now injection (Hres H) as -> ->.
    + intros H. destruct serr2; simpl in H;
        rewrite Htr1, Htr2' in H; rewrite <- (app_nil_r evs1) in H;
        destruct (Hsplit _ _ H) as [H1 _]; discriminate (Hres H1).
    + intros H. destruct serr1; simpl in H;
        rewrite Htr1', Htr2 in H; rewrite <- (app_nil_r evs2) in H;
        destruct (Hsplit _ _ H) as [H1 _]; discriminate (Hres H1).
    + intros H.
      assert (H' : received (evs1 ++ evs1') = received (evs2 ++ evs2')).
      { destruct serr1, serr2; simpl in H; now rewrite Htr1', Htr2' in H. }
      destruct (Hsplit _ _ H') as [H1 H2].
      injection (Hres H1) as ->. injection (Hres' H2) as -> ->.
      now destruct serr2.
  - rewrite !GetChamberMembersByDistrict_execute. apply Hone.
  - rewrite !GetNewMembers_execute. apply Hone.
  - rewrite !GetDepartingMembers_execute. apply Hone.
Qed.

End TwoRuns.

(** ** Runs in the test environment *)

Section Runs.

Import Mock.

Local Open Scope list_scope.
Local Open Scope Z_scope.

(** Members of the 115th senate: one entity, with identifier K000388. *)
Example GetMembers_senate_115 :
  fst (GetMembers Mock.client 115 "senate" (start [Mock.ok 200 Mock.senate_115]))
  = ([Mock.summary "K000388" "Amy"], None).
Proof. reflexivity. Qed.

(** The request behind it; neither the chamber nor the congress is looked at
    before it goes into the URL. *)
Example GetMembers_request :
  sent (trace (snd (GetMembers Mock.client 115 "senate" (start []))))
  = [http.mkRequest "GET"
       "https://api.propublica.org/congress/v1/115/senate/members.json"
       [("X-API-Key", "KEYgoesHERE123")%string]]
  /\
  constructed (trace (snd (GetMembers Mock.client (-1) "lords" (start []))))
  = ["https://api.propublica.org/congress/v1/-1/lords/members.json"%string].
Proof. split; reflexivity. Qed.

(** A URL without a scheme: no request is sent. *)
Example GetNewMembers_bad_endpoint :
  GetNewMembers (Client.mk ":8080" "KEYgoesHERE123") (start [Mock.ok 200 Mock.empty])
  = ([], Some (TransportError "missing protocol scheme"),
     mkState [Mock.ok 200 Mock.empty] [EvNewRequest "GET" ":8080/members/new.json"]).
Proof. reflexivity. Qed.

(** Both chambers of a state, house first. *)
Example GetMembersByState_nj :
  fst (GetMembersByState Mock.client "nj"
         (start [Mock.ok 200 Mock.nj_house; Mock.ok 200 Mock.nj_senate]))
  = ([Mock.search "P000034" "Frank Pallone"; Mock.search "B001288" "Cory Booker";
      Mock.search "M000639" "Robert Menendez"], None).
Proof. reflexivity. Qed.

(** C1 as stated fails: the house call answers with one member, the senate
    call times out, and the member comes back together with the error. *)
Lemma GetMembersByState_keeps_house_on_senate_failure :
  let run := GetMembersByState Mock.client "nj"
               (start [Mock.ok 200 Mock.nj_house; inl "i/o timeout"%string]) in
  fst run = ([Mock.search "P000034" "Frank Pallone"],
             Some (TransportError "i/o timeout"))
  /\ fst run <> ([], Some (TransportError "i/o timeout")).
Proof. split; [reflexivity|discriminate]. Qed.

(** The house call answers, the senate call gets a page of HTML. *)
Lemma GetMembersByState_outcome_witness :
  let s := start [Mock.ok 200 Mock.nj_house; Mock.ok 502 Mock.html] in
  let house := GetChamberMembersByState Mock.client "nj" "house" s in
  let senate := GetChamberMembersByState Mock.client "nj" "senate" (snd house) in
  fst house = ([Mock.search "P000034" "Frank Pallone"], None) /\
  fst senate
  = ([], Some (DecodeError "invalid character '<' looking for beginning of value")) /\
  GetMembersByState Mock.client "nj" s
  = ([Mock.search "P000034" "Frank Pallone"],
     Some (DecodeError "invalid character '<' looking for beginning of value"),
     snd senate).
Proof.
  intros s house senate.
  split; [reflexivity|]. split; [reflexivity|].
  exact (GetMembersByState_outcome Mock.client "nj" s (snd house) (snd senate)
           (fst (fst house)) (fst (fst senate))
           (snd (fst house)) (snd (fst senate)) eq_refl eq_refl).
Defined.

(** C2 as stated fails: of three groups the third is left out. *)
Lemma GetDepartingMembers_drops_third_group :
  let groups :=
    [getMembersInTransitionResults.mk [Mock.transition "A1"] "" "house";
     getMembersInTransitionResults.mk [Mock.transition "B2"] "" "senate";
     getMembersInTransitionResults.mk [Mock.transition "C3"] "" "joint"] in
  let run := GetDepartingMembers Mock.client 115 "senate"
               (start [Mock.ok 200 Mock.leaving_three]) in
  unmarshal (Mock.json Mock.leaving_three)
  = inr (getMembersInTransitionResponse.mk "" "" groups) /\
  fst run = ([Mock.transition "A1"; Mock.transition "B2"], None) /\
  fst run
  <> (Spec.all_groups_concatenated getMembersInTransitionResults.Members groups,
      None).
Proof. split; [reflexivity|]. split; [reflexivity|discriminate]. Qed.

(** Two groups, one per chamber: A1 then B2. *)
Lemma GetDepartingMembers_first_two_groups_witness :
  let s := start [Mock.ok 200 Mock.leaving_two] in
  delivers Mock.client
    "https://api.propublica.org/congress/v1/115/senate/members/leaving.json"
    (world s) (Mock.json Mock.leaving_two) [] /\
  fst (GetDepartingMembers Mock.client 115 "senate" s)
  = ([Mock.transition "A1"; Mock.transition "B2"], None).
Proof.
  intros s.
  assert (Hnet : delivers Mock.client
    "https://api.propublica.org/congress/v1/115/senate/members/leaving.json"
    (world s) (Mock.json Mock.leaving_two) []).
  { split; [reflexivity|]. exists 200. reflexivity. }
  split; [exact Hnet|].
  exact (proj1 (GetDepartingMembers_first_two_groups Mock.client 115 "senate" s
                  [] (Mock.json Mock.leaving_two) _ eq_refl Hnet)).
Defined.

(** The two senators of a state, as listed. *)
Lemma direct_list_returns_results_witness :
  let s := start [Mock.ok 200 Mock.nj_senate] in
  delivers Mock.client
    "https://api.propublica.org/congress/v1/members/senate/nj/current.json"
    (world s) (Mock.json Mock.nj_senate) [] /\
  fst (GetChamberMembersByState Mock.client "nj" "senate" s)
  = ([Mock.search "B001288" "Cory Booker";
      Mock.search "M000639" "Robert Menendez"], None).
Proof.
  intros s.
  assert (Hnet : delivers Mock.client
    "https://api.propublica.org/congress/v1/members/senate/nj/current.json"
    (world s) (Mock.json Mock.nj_senate) []).
  { split; [reflexivity|]. exists 200. reflexivity. }
  split; [exact Hnet|].
  exact (proj1 (direct_list_returns_results Mock.client "nj" "senate" 1 s
                  [] (Mock.json Mock.nj_senate) _ eq_refl) Hnet).
Defined.

(** Two groups: the members of the first. *)
Lemma first_group_returns_first_members_witness :
  let s := start [Mock.ok 200 Mock.senate_115_paged] in
  delivers Mock.client
    "https://api.propublica.org/congress/v1/115/senate/members.json"
    (world s) (Mock.json Mock.senate_115_paged) [] /\
  fst (GetMembers Mock.client 115 "senate" s)
  = ([Mock.summary "K000388" "Amy"], None).
Proof.
  intros s.
  assert (Hnet : delivers Mock.client
    "https://api.propublica.org/congress/v1/115/senate/members.json"
    (world s) (Mock.json Mock.senate_115_paged) []).
  { split; [reflexivity|]. exists 200. reflexivity. }
  split; [exact Hnet|].
  exact (proj1 (first_group_returns_first_members Mock.client 115 "senate" s
                  [] (Mock.json Mock.senate_115_paged))
           _ _ _ eq_refl eq_refl Hnet).
Defined.

(** Both chambers answer with empty results. *)
Lemma empty_results_empty_list_witness :
  let s := start [Mock.ok 200 Mock.empty; Mock.ok 200 Mock.empty] in
  serves Mock.client (empty_envelope (OpGetMembersByState "nj"))
    (urls Mock.client (OpGetMembersByState "nj")) (world s) /\
  fst (invoke Mock.client (OpGetMembersByState "nj") s) = (Searches [], None).
Proof.
  intros s.
  assert (Hnet : serves Mock.client (empty_envelope (OpGetMembersByState "nj"))
    (urls Mock.client (OpGetMembersByState "nj")) (world s)).
  { exists (Mock.json Mock.empty), [Mock.ok 200 Mock.empty].
    split; [split; [reflexivity|exists 200; reflexivity]|].
    split; [reflexivity|].
    exists (Mock.json Mock.empty), [].
    split; [split; [reflexivity|exists 200; reflexivity]|].
    split; [reflexivity|exact I]. }
  split; [exact Hnet|].
  exact (proj1 (empty_results_empty_list Mock.client (OpGetMembersByState "nj") s)
           eq_refl Hnet).
Defined.

(** C6 as stated fails: the house answers with one member, the senate
    request gets a page of HTML, and the member comes back with the decode
    error. *)
Lemma malformed_senate_body_keeps_house :
  let op := OpGetMembersByState "nj" in
  let msg := "invalid character '<' looking for beginning of value"%string in
  let run := invoke Mock.client op
               (start [Mock.ok 200 Mock.nj_house; Mock.ok 200 Mock.html]) in
  malformed op (Mock.json Mock.html) msg /\
  fst run = (Searches [Mock.search "P000034" "Frank Pallone"],
             Some (DecodeError msg)) /\
  fst run <> (nothing op, Some (DecodeError msg)).
Proof. split; [reflexivity|]. split; [reflexivity|discriminate]. Qed.

(** A gateway answers with HTML: to [GetMember], and to the senate request
    of [GetMembersByState]. *)
Lemma malformed_body_decode_error_witness :
  let msg := "invalid character '<' looking for beginning of value"%string in
  let s := start [Mock.ok 502 Mock.html] in
  let s2 := start [Mock.ok 200 Mock.nj_house; Mock.ok 502 Mock.html] in
  (malformed (OpGetMember "K000388") (Mock.json Mock.html) msg /\
   fst (invoke Mock.client (OpGetMember "K000388") s)
   = (Details MemberDetails.zero, Some (DecodeError msg)))
  /\
  fst (invoke Mock.client (OpGetMembersByState "nj") s2)
  = (Searches [Mock.search "P000034" "Frank Pallone"], Some (DecodeError msg)).
Proof.
  intros msg s s2.
  assert (Hnet : forall script status text,
    delivers Mock.client
      (Client.Endpoint Mock.client ++ Spec.path_state "senate" "nj")%string
      (Mock.ok status text :: script) (Mock.json text) script).
  { intros script status text. split; [reflexivity|]. exists status. reflexivity. }
  split.
  - split; [reflexivity|].
    refine (proj1 (malformed_body_decode_error Mock.client (OpGetMember "K000388") s
                     (Mock.json Mock.html) [] msg eq_refl) _).
    split; [reflexivity|]. exists 502. reflexivity.
  - refine (proj2 (malformed_body_decode_error Mock.client (OpGetMembersByState "nj") s2
                     (Mock.json Mock.html) [] msg eq_refl)
              "nj"%string (Mock.json Mock.nj_house) [Mock.ok 502 Mock.html]
              (getMembersByStateResponse.mk "" "" [Mock.search "P000034" "Frank Pallone"])
              eq_refl _ eq_refl (Hnet [] 502 Mock.html)).
    split; [reflexivity|]. exists 200. reflexivity.
Defined.

(** C7 as stated fails: the house answers with one member and nobody
    answers the senate request; the house body has been decoded and the
    member comes back with the transport error. *)
Lemma network_failure_after_house_decodes :
  let op := OpGetMembersByState "nj" in
  let run := invoke Mock.client op (start [Mock.ok 200 Mock.nj_house]) in
  fst run = (Searches [Mock.search "P000034" "Frank Pallone"],
             Some (TransportError "connection refused")) /\
  decoded (trace (snd run)) = [Mock.json Mock.nj_house] /\
  fst run <> (nothing op, Some (TransportError "connection refused")) /\
  decoded (trace (snd run)) <> [].
Proof.
  split; [reflexivity|]. split; [reflexivity|]. split; discriminate.
Qed.

(** Nobody answers: the only request of [GetDepartingMembers], and the
    senate request of [GetMembersByState]. *)
Lemma network_failure_no_decode_witness :
  let op := OpGetDepartingMembers 115 "senate" in
  let s := start (N := Mock.net) [] in
  let s2 := start [Mock.ok 200 Mock.nj_house] in
  (refuses Mock.client (first_url Mock.client op) (world s) "connection refused" [] /\
   fst (invoke Mock.client op s)
   = (Transitions [], Some (TransportError "connection refused")) /\
   decoded (trace (snd (invoke Mock.client op s))) = [])
  /\
  (fst (invoke Mock.client (OpGetMembersByState "nj") s2)
   = (Searches [Mock.search "P000034" "Frank Pallone"],
      Some (TransportError "connection refused")) /\
   decoded (trace (snd (invoke Mock.client (OpGetMembersByState "nj") s2)))
   = [Mock.json Mock.nj_house]).
Proof.
  intros op s s2. split.
  - assert (Hnet : refuses Mock.client (first_url Mock.client op) (world s)
                     "connection refused" []).
    { split; reflexivity. }
    split; [exact Hnet|].
    exact (proj1 (network_failure_no_decode Mock.client op s
                    "connection refused" []) Hnet).
  - refine (proj2 (network_failure_no_decode Mock.client (OpGetMembersByState "nj")
                     s2 "connection refused" [])
              "nj"%string (Mock.json Mock.nj_house) []
              (getMembersByStateResponse.mk "" "" [Mock.search "P000034" "Frank Pallone"])
              eq_refl _ eq_refl _).
    + split; [reflexivity|]. exists 200. reflexivity.
    + split; reflexivity.
Defined.

(** The same envelope under status 200 and under status 503. *)
Lemma status_code_not_inspected_witness :
  let op := OpGetMembers 115 "senate" in
  let w1 := [Mock.ok 200 Mock.senate_115] in
  let w2 := [Mock.ok 503 Mock.senate_115] in
  fst (invoke Mock.client op (start w1)) = fst (invoke Mock.client op (start w2)) /\
  fst (invoke Mock.client op (start w2))
  = (Summaries [Mock.summary "K000388" "Amy"], None).
Proof.
  intros op w1 w2. split; [|reflexivity].
  exact (status_code_not_inspected Mock.net Mock.net Mock.client op w1 w2 eq_refl).
Defined.

(** No result, and one result with nothing in it. *)
Lemma GetMember_empty_results_zero_witness :
  let s := start [Mock.ok 200 Mock.empty] in
  let s2 := start [Mock.ok 200 Mock.nobody] in
  fst (GetMember Mock.client "K000388" s) = (MemberDetails.zero, None) /\
  fst (GetMember Mock.client "K000388" s2) = fst (GetMember Mock.client "K000388" s).
Proof.
  intros s s2.
  assert (Hnet : forall status text,
    delivers Mock.client
      (Client.Endpoint Mock.client ++ Spec.path_member "K000388")%string
      (world (start [Mock.ok status text])) (Mock.json text) []).
  { intros status text. split; [reflexivity|]. exists status. reflexivity. }
  destruct (GetMember_empty_results_zero Mock.client "K000388" s
              [] (Mock.json Mock.empty) (getMemberResponse.mk "OK" "" [])
              eq_refl eq_refl (Hnet 200 Mock.empty))
    as [Hzero Hsame].
  split; [exact Hzero|].
  exact (Hsame s2 [] (Mock.json Mock.nobody)
           (getMemberResponse.mk "OK" "" [MemberDetails.zero]) []
           eq_refl eq_refl (Hnet 200 Mock.nobody)).
Defined.

End Runs.

(** ** One cycle, as seen from outside *)

Section Observed.

Context {P : URLParser} {N : Net}.

Local Open Scope list_scope.

(** Everything one cycle shows: the URL it builds, that it sends at most one
    request, that it decodes exactly the body it could read, and where its
    result and its error come from. *)
Lemma execute_observed {T R} {U : Unmarshaler T} c url (zero : R)
    (unwrap : T -> R) s :
  exists evs,
    trace (snd (execute c url zero unwrap s)) = trace s ++ evs /\
    constructed evs = [url] /\
    decoded evs = readable (received evs) /\
    match snd (fst (execute c url zero unwrap s)) with
    | None =>
        sent evs = [api_request c url] /\
        exists body v, decoded evs = [body] /\ unmarshal body = inr v /\
                       fst (fst (execute c url zero unwrap s)) = unwrap v
    | Some (DecodeError msg) =>
        sent evs = [api_request c url] /\
        fst (fst (execute c url zero unwrap s)) = zero /\
        exists body, decoded evs = [body] /\ unmarshal body = inl msg
    | Some (TransportError msg) =>
        (sent evs = [] \/ sent evs = [api_request c url]) /\
        fst (fst (execute c url zero unwrap s)) = zero /\
        decoded evs = [] /\
        (url_error url = Some msg /\ received evs = [] \/
         received evs = [inl msg] \/
         exists data, received evs = [inr (http.mkBody data (Some msg))])
    end.
Proof.
  rewrite execute_run.
  destruct (url_error url) as [msg|] eqn:Hurl.
  { eexists. split; [reflexivity|]. simpl. repeat split; auto. }
  destruct (round_trip _ _) as [[msg|resp] w'].
  { eexists. split; [reflexivity|]. simpl. repeat split; auto. }
  destruct resp as [status [data [msg|]]]; simpl.
  { eexists. split; [rewrite <- app_assoc; reflexivity|]. simpl.
    repeat split; eauto. }
  destruct (unmarshal data) as [msg|v] eqn:Hdec;
    (eexists; split; [rewrite <- app_assoc; reflexivity|]; simpl;
     repeat split; eauto).
Qed.

End Observed.

(** ** Every operation, as seen from outside *)

Section Outside.

Context {P : URLParser} {N : Net}.
Context {U_members : Unmarshaler getMembersResponse.t}.
Context {U_member : Unmarshaler getMemberResponse.t}.
Context {U_state : Unmarshaler getMembersByStateResponse.t}.
Context {U_transition : Unmarshaler getMembersInTransitionResponse.t}.

Local Open Scope list_scope.

Lemma tagged_run {A} (tag : A -> Result) (m : M (A * option error)) s :
  tagged tag m s = (tag (fst (fst (m s))), snd (fst (m s)), snd (m s)).
Proof. unfold tagged, bind, ret. now destruct (m s) as [[a e] s']. Qed.

(** One cycle keeps to [summary], and so does every operation. *)
Lemma execute_summary {T R} {U : Unmarshaler T} c url (zero : R)
    (unwrap : T -> R) s :
  exists evs,
    trace (snd (execute c url zero unwrap s)) = trace s ++ evs /\
    summary c [url] (fun body msg => unmarshal body = inl msg)
      (snd (fst (execute c url zero unwrap s))) evs.
Proof.
  destruct (execute_observed c url zero unwrap s) as (evs & Htr & Hc & Hd & Hcase).
  exists evs. split; [exact Htr|]. unfold summary.
  destruct (snd (fst (execute c url zero unwrap s))) as [[msg|msg]|].
  - destruct Hcase as (Hs & _).
    split; [exact Hd|]. split; [destruct Hs as [-> | ->]; simpl; lia|].
    split; discriminate.
  - destruct Hcase as (Hs & _ & body & Hb & Hbad).
    split; [exact Hd|]. split; [rewrite Hs; simpl; lia|].
    split; [discriminate|].
    intros msg' [= <-]. exists [], body. now split.
  - destruct Hcase as (Hs & body & v & Hb & _).
    split; [exact Hd|]. split; [rewrite Hs; simpl; lia|].
    split; [|discriminate].
    intros _. now rewrite Hs, Hc, Hb.
Qed.

Lemma invoke_summary c op s :
  exists evs,
    trace (snd (invoke c op s)) = trace s ++ evs /\
    summary c (urls c op) (malformed op) (snd (fst (invoke c op s))) evs.
Proof.
  destruct op; cbn [invoke urls paths map malformed]; rewrite tagged_run;
    cbn [fst snd].
  - rewrite GetMembers_execute. apply execute_summary.
  - rewrite GetMember_execute. apply execute_summary.
  - rewrite GetChamberMembersByState_execute. apply execute_summary.
  - rewrite GetMembersByState_run.
    destruct (execute_summary c
                (Client.Endpoint c ++ Spec.path_state "house" state)%string []
                (fun e => Spec.direct_list (getMembersByStateResponse.Results e)) s)
      as (evs1 & Htr1 & Hd1 & Hl1 & Hok1 & Hbad1).
    rewrite <- GetChamberMembersByState_execute in Htr1, Hok1, Hbad1.
    destruct (GetChamberMembersByState c state "house" s)
      as [[members err] s1].
    cbn [fst snd] in Htr1, Hok1, Hbad1.
    destruct err as [e|].
    + exists evs1. split; [exact Htr1|]. unfold summary.
      split; [exact Hd1|]. split; [simpl in *; lia|].
      split; [discriminate|exact Hbad1].
    + destruct (Hok1 eq_refl) as (Hs1 & Hc1 & Hn1).
      destruct (execute_summary c
                  (Client.Endpoint c ++ Spec.path_state "senate" state)%string []
                  (fun e => Spec.direct_list (getMembersByStateResponse.Results e)) s1)
        as (evs2 & Htr2 & Hd2 & Hl2 & Hok2 & Hbad2).
      rewrite <- GetChamberMembersByState_execute in Htr2, Hok2, Hbad2.
      destruct (GetChamberMembersByState c state "senate" s1)
        as [[senate err] s2].
      cbn [fst snd] in Htr2, Hok2, Hbad2.
      exists (evs1 ++ evs2).
      assert (Htr : trace s2 = trace s ++ evs1 ++ evs2)
        by now rewrite Htr2, Htr1, app_assoc.
      assert (Hsum : summary c
                [(Client.Endpoint c ++ Spec.path_state "house" state)%string;
                 (Client.Endpoint c ++ Spec.path_state "senate" state)%string]
                (malformed (OpGetMembersByState state)) err (evs1 ++ evs2)).
      { unfold summary.
        rewrite received_app, decoded_app, sent_app, constructed_app.
        unfold readable. rewrite flat_map_app. fold (readable (received evs1)).
        fold (readable (received evs2)). rewrite <- Hd1, <- Hd2.
        split; [reflexivity|].
        split; [rewrite Hs1, length_app; simpl in *; lia|].
        split.
        - intros H. destruct (Hok2 H) as (Hs2 & Hc2 & Hn2).
          split; [now rewrite Hs1, Hs2|]. split; [now rewrite Hc1, Hc2|].
          rewrite length_app. simpl in *. lia.
        - intros msg He. destruct (Hbad2 msg He) as (bodies & body & Hb & Hm).
          exists (decoded evs1 ++ bodies), body.
          split; [now rewrite Hb, app_assoc|exact Hm]. }
      destruct err as [e|]; cbn [fst snd]; (split; [exact Htr|exact Hsum]).
  - rewrite GetChamberMembersByDistrict_execute. apply execute_summary.
  - rewrite GetNewMembers_execute. apply execute_summary.
  - rewrite GetDepartingMembers_execute. apply execute_summary.
Qed.

End Outside.

(** ** Failures before the body is decoded *)

Section Early.

Context {P : URLParser} {N : Net}.
Context {U_members : Unmarshaler getMembersResponse.t}.
Context {U_member : Unmarshaler getMemberResponse.t}.
Context {U_state : Unmarshaler getMembersByStateResponse.t}.
Context {U_transition : Unmarshaler getMembersInTransitionResponse.t}.

Local Open Scope list_scope.

Lemma execute_unparsed {T R} {U : Unmarshaler T} c url (zero : R)
    (unwrap : T -> R) s msg :
  url_error url = Some msg ->
  execute c url zero unwrap s
  = (zero, Some (TransportError msg),
     mkState (world s) (trace s ++ [EvNewRequest "GET" url])).
Proof. intros Hurl. now rewrite execute_run, Hurl. Qed.

Lemma execute_cut {T R} {U : Unmarshaler T} c url (zero : R)
    (unwrap : T -> R) s resp w' msg :
  url_error url = None ->
  round_trip (api_request c url) (world s) = (inr resp, w') ->
  http.failure (http.Body resp) = Some msg ->
  execute c url zero unwrap s
  = (zero, Some (TransportError msg),
     mkState w' (trace s ++ [EvNewRequest "GET" url;
                             EvDo (api_request c url) (inr resp); EvReadAll])).
Proof.
  intros Hurl Hdo Hbody. rewrite execute_run, Hurl, Hdo, Hbody.
  cbv zeta. now rewrite <- app_assoc.
Qed.

(** X1: when [http.NewRequest] refuses the URL of an operation, the
    operation fails with that error and returns no entities; it has called
    nothing but [http.NewRequest], so no request is sent and the world is as
    it was. *)
Theorem unparsable_url_no_request
    (c : Client.t) (op : Operation) (s : State) (msg : string) :
  url_error (first_url c op) = Some msg ->
  invoke c op s
  = (nothing op, Some (TransportError msg),
     mkState (world s) (trace s ++ [EvNewRequest "GET" (first_url c op)])).
Proof.
  intros Hurl.
  destruct op; unfold first_url in *; cbn [invoke nothing paths hd] in *;
    rewrite tagged_run.
  - now rewrite GetMembers_execute, (execute_unparsed _ _ _ _ _ _ Hurl).
  - now rewrite GetMember_execute, (execute_unparsed _ _ _ _ _ _ Hurl).
  - now rewrite GetChamberMembersByState_execute, (execute_unparsed _ _ _ _ _ _ Hurl).
  - now rewrite GetMembersByState_run, GetChamberMembersByState_execute,
      (execute_unparsed _ _ _ _ _ _ Hurl).
  - now rewrite GetChamberMembersByDistrict_execute,
      (execute_unparsed _ _ _ _ _ _ Hurl).
  - now rewrite GetNewMembers_execute, (execute_unparsed _ _ _ _ _ _ Hurl).
  - now rewrite GetDepartingMembers_execute, (execute_unparsed _ _ _ _ _ _ Hurl).
Qed.

(** X2: when the response to the request of an operation arrives but its
    body cannot be read to the end, the operation fails with the error of
    [ioutil.ReadAll] and returns no entities; what was read is thrown away
    without being given to [json.Unmarshal], and no further request is
    made. *)
Theorem broken_body_no_decode
    (c : Client.t) (op : Operation) (s : State) (resp : http.Response)
    (w' : World) (msg : string) :
  url_error (first_url c op) = None ->
  round_trip (api_request c (first_url c op)) (world s) = (inr resp, w') ->
  http.failure (http.Body resp) = Some msg ->
  invoke c op s
  = (nothing op, Some (TransportError msg),
     mkState w' (trace s ++ [EvNewRequest "GET" (first_url c op);
                             EvDo (api_request c (first_url c op)) (inr resp);
                             EvReadAll])).
Proof.
  intros Hurl Hdo Hbody.
  destruct op; unfold first_url in *; cbn [invoke nothing paths hd] in *;
    rewrite tagged_run.
  - now rewrite GetMembers_execute, (execute_cut _ _ _ _ _ _ _ _ Hurl Hdo Hbody).
  - now rewrite GetMember_execute, (execute_cut _ _ _ _ _ _ _ _ Hurl Hdo Hbody).
  - now rewrite GetChamberMembersByState_execute,
      (execute_cut _ _ _ _ _ _ _ _ Hurl Hdo Hbody).
  - now rewrite GetMembersByState_run, GetChamberMembersByState_execute,
      (execute_cut _ _ _ _ _ _ _ _ Hurl Hdo Hbody).
  - now rewrite GetChamberMembersByDistrict_execute,
      (execute_cut _ _ _ _ _ _ _ _ Hurl Hdo Hbody).
  - now rewrite GetNewMembers_execute, (execute_cut _ _ _ _ _ _ _ _ Hurl Hdo Hbody).
  - now rewrite GetDepartingMembers_execute,
      (execute_cut _ _ _ _ _ _ _ _ Hurl Hdo Hbody).
Qed.

(** X3: whatever makes it fail, a single-request operation that returns an
    error returns no entities with it. *)
Theorem single_request_error_nothing
    (c : Client.t) (op : Operation) (s : State) :
  single_request op = true ->
  snd (fst (invoke c op s)) <> None ->
  fst (fst (invoke c op s)) = nothing op.
Proof.
  assert (Hone : forall {T A} {U : Unmarshaler T} url (zero : A) unwrap,
    snd (fst (execute c url zero unwrap s)) <> None ->
    fst (fst (execute c url zero unwrap s)) = zero).
  { intros T A U url zero unwrap Herr.
    destruct (execute c url zero unwrap s) as [[r [e|]] s'] eqn:Hrun;
      [|now elim Herr].
    apply (execute_error_zero c url zero unwrap s r e). now rewrite Hrun. }
  intros Hsingle.
  destruct op; try discriminate Hsingle; cbn [invoke nothing];
    rewrite tagged_run; cbn [fst snd]; intros Herr; f_equal.
  - rewrite GetMembers_execute in *. now apply Hone.
  - rewrite GetMember_execute in *. now apply Hone.
  - rewrite GetChamberMembersByState_execute in *. now apply Hone.
  - rewrite GetChamberMembersByDistrict_execute in *. now apply Hone.
  - rewrite GetNewMembers_execute in *. now apply Hone.
  - rewrite GetDepartingMembers_execute in *. now apply Hone.
Qed.

End Early.

(** ** Successful runs, and what every run keeps to *)

Section Kept.

Context {P : URLParser} {N : Net}.
Context {U_members : Unmarshaler getMembersResponse.t}.
Context {U_member : Unmarshaler getMemberResponse.t}.
Context {U_state : Unmarshaler getMembersByStateResponse.t}.
Context {U_transition : Unmarshaler getMembersInTransitionResponse.t}.

Local Open Scope list_scope.

(** X4: an operation never sends more requests than it has paths, so none
    is repeated; and when it returns without error it has built every one of
    its URLs and sent the keyed request for each, once and in order. *)
Theorem success_sends_every_request
    (c : Client.t) (op : Operation) (w : World) :
  let run := invoke c op (start w) in
  length (sent (trace (snd run))) <= length (paths op) /\
  (snd (fst run) = None ->
   constructed (trace (snd run)) = urls c op /\
   sent (trace (snd run)) = map (api_request c) (urls c op)).
Proof.
  intros run.
  destruct (invoke_summary c op (start w)) as (evs & Htr & _ & Hlen & Hok & _).
  fold run in Htr, Hok. simpl in Htr. rewrite Htr.
  unfold urls in Hlen. rewrite length_map in Hlen.
  split; [exact Hlen|].
  intros Herr. destruct (Hok Herr) as (Hs & Hc & _). now split.
Qed.

(** X5: what an operation gives to [json.Unmarshal] is, in order, exactly
    the bodies of the responses it received that could be read to the end:
    nothing else is decoded, nothing read in full is left undecoded, and a
    body that broke off is not decoded. *)
Theorem decodes_what_it_reads (c : Client.t) (op : Operation) (w : World) :
  let tr := trace (snd (invoke c op (start w))) in
  decoded tr = readable (received tr).
Proof.
  intros tr.
  destruct (invoke_summary c op (start w)) as (evs & Htr & Hd & _).
  fold tr in Htr. simpl in Htr. now rewrite Htr.
Qed.

(** X6: a decode error returned by an operation is the error of
    [json.Unmarshal] on the last body the operation gave to it, with its
    message unchanged. *)
Theorem decode_error_from_last_body
    (c : Client.t) (op : Operation) (w : World) (msg : string) :
  let run := invoke c op (start w) in
  snd (fst run) = Some (DecodeError msg) ->
  exists bodies body,
    decoded (trace (snd run)) = bodies ++ [body] /\ malformed op body msg.
Proof.
  intros run Herr.
  destruct (invoke_summary c op (start w)) as (evs & Htr & _ & _ & _ & Hbad).
  fold run in Htr, Hbad. simpl in Htr. rewrite Htr. now apply Hbad.
Qed.

(** X7: [GetMember] returns the first element of the [results] of a
    well-formed envelope, whatever follows it. *)
Theorem GetMember_first_result
    (c : Client.t) (id : string) (s : State) (w' : World) (body : bytes)
    (envelope : getMemberResponse.t) (member : MemberDetails.t)
    (rest : list MemberDetails.t) :
  unmarshal body = inr envelope ->
  getMemberResponse.Results envelope = member :: rest ->
  delivers c (Client.Endpoint c ++ Spec.path_member id)%string (world s) body w' ->
  fst (GetMember c id s) = (member, None).
Proof.
  intros Hdec Hres Hnet.
  rewrite GetMember_execute,
    (proj1 (execute_delivered _ _ _ _ _ _ _ _ Hnet Hdec)).
  now rewrite Hres.
Qed.

Lemma execute_answered {T R} {U : Unmarshaler T} c url (zero : R)
    (unwrap : T -> R) s resp w' v :
  url_error url = None ->
  round_trip (api_request c url) (world s) = (inr resp, w') ->
  http.failure (http.Body resp) = None ->
  unmarshal (http.data (http.Body resp)) = inr v ->
  execute c url zero unwrap s
  = (unwrap v, None,
     mkState w' (trace s ++ [EvNewRequest "GET" url;
                             EvDo (api_request c url) (inr resp); EvReadAll;
                             EvUnmarshal (http.data (http.Body resp))])).
Proof.
  intros Hurl Hdo Hbody Hdec. rewrite execute_run, Hurl, Hdo, Hbody.
  cbv zeta. now rewrite Hdec, <- app_assoc.
Qed.

(** X8: when both chambers answer with well-formed envelopes,
    [GetMembersByState] returns the house results followed by the senate
    results.  The two cycles run one after the other: the senate request is
    built only after the house body has been decoded, and it is answered by
    the world the house call left. *)
Theorem GetMembersByState_both_chambers
    (c : Client.t) (state : string) (w w1 w2 : World)
    (house senate : http.Response)
    (e1 e2 : getMembersByStateResponse.t) :
  let url1 := (Client.Endpoint c ++ Spec.path_state "house" state)%string in
  let url2 := (Client.Endpoint c ++ Spec.path_state "senate" state)%string in
  url_error url1 = None ->
  url_error url2 = None ->
  round_trip (api_request c url1) w = (inr house, w1) ->
  round_trip (api_request c url2) w1 = (inr senate, w2) ->
  http.failure (http.Body house) = None ->
  http.failure (http.Body senate) = None ->
  unmarshal (http.data (http.Body house)) = inr e1 ->
  unmarshal (http.data (http.Body senate)) = inr e2 ->
  GetMembersByState c state (start w)
  = (getMembersByStateResponse.Results e1 ++ getMembersByStateResponse.Results e2,
     None,
     mkState w2
       [EvNewRequest "GET" url1; EvDo (api_request c url1) (inr house);
        EvReadAll; EvUnmarshal (http.data (http.Body house));
        EvNewRequest "GET" url2; EvDo (api_request c url2) (inr senate);
        EvReadAll; EvUnmarshal (http.data (http.Body senate))]).
Proof.
  intros url1 url2 Hurl1 Hurl2 Hdo1 Hdo2 Hb1 Hb2 Hdec1 Hdec2.
  rewrite GetMembersByState_run, GetChamberMembersByState_execute.
  fold url1.
  rewrite (execute_answered c url1 _ _ (start w) house w1 e1 Hurl1 Hdo1 Hb1 Hdec1).
  cbn [start trace app].
  rewrite GetChamberMembersByState_execute. fold url2.
  now rewrite (execute_answered c url2 _ _ (mkState w1 _) senate w2 e2
                 Hurl2 Hdo2 Hb2 Hdec2).
Qed.

End Kept.

(** ** The earlier revision *)

Section Earlier.

Context {P : URLParser} {N : Net}.
Context {U_members : Unmarshaler getMembersResponse.t}.
Context {U_earlier : Unmarshaler member_go.getMembersResponse.t}.

Local Open Scope list_scope.

Lemma member_go_GetMembers_execute c congress chamber s :
  member_go.GetMembers c congress chamber s =
  execute c (Client.Endpoint c ++ Spec.path_members congress chamber)%string []
    (fun e => Spec.first_group member_go.getMembersResults.Members
                (member_go.getMembersResponse.Results e)) s.
Proof.
  unfold member_go.GetMembers. apply execute_ext.
  intros v. now destruct (member_go.getMembersResponse.Results v).
Qed.

(** X9: [GetMembers] of [member.go] returns the members of the first group
    of a well-formed envelope, whatever groups follow, and the empty list
    when there is no group; in both cases without error. *)
Theorem member_go_GetMembers_first_group
    (c : Client.t) (congress : int) (chamber : string) (s : State)
    (w' : World) (body : bytes) (envelope : member_go.getMembersResponse.t) :
  unmarshal body = inr envelope ->
  delivers c (Client.Endpoint c ++ Spec.path_members congress chamber)%string
    (world s) body w' ->
  fst (member_go.GetMembers c congress chamber s)
  = (match member_go.getMembersResponse.Results envelope with
     | group :: _ => member_go.getMembersResults.Members group
     | [] => []
     end, None).
Proof.
  intros Hdec Hnet.
  now rewrite member_go_GetMembers_execute,
    (proj1 (execute_delivered _ _ _ _ _ _ _ _ Hnet Hdec)).
Qed.

(** X10: whatever makes it fail, [GetMembers] of [member.go] returns no
    members with an error. *)
Theorem member_go_GetMembers_error_no_members
    (c : Client.t) (congress : int) (chamber : string) (s : State)
    (members : list member_go.Member.t) (e : error) :
  fst (member_go.GetMembers c congress chamber s) = (members, Some e) ->
  members = [].
Proof.
  rewrite member_go_GetMembers_execute. apply execute_error_zero.
Qed.

(** The library calls of a cycle and the world it leaves do not depend on
    the type decoded into. *)
Lemma execute_same_calls {T1 R1 T2 R2} {U1 : Unmarshaler T1}
    {U2 : Unmarshaler T2} c url (zero1 : R1) (unwrap1 : T1 -> R1)
    (zero2 : R2) (unwrap2 : T2 -> R2) s :
  snd (execute c url zero1 unwrap1 s) = snd (execute c url zero2 unwrap2 s).
Proof.
  rewrite !execute_run.
  destruct (url_error url); [reflexivity|].
  destruct (round_trip _ _) as [[msg|resp] w']; [reflexivity|].
  destruct (http.failure _); [reflexivity|]. cbv zeta.
  now destruct (unmarshal (Unmarshaler := U1) _), (unmarshal (Unmarshaler := U2) _).
Qed.

(** X11: the two revisions of [GetMembers] talk to the world in the same
    way: on the same arguments they make the same library calls, with the
    same request, and leave the same world; and they fail together, with
    the same error, whenever the two decoders accept the same bodies and
    reject the others alike. *)
Theorem GetMembers_revisions_same_calls
    (c : Client.t) (congress : int) (chamber : string) (s : State) :
  snd (member_go.GetMembers c congress chamber s)
  = snd (GetMembers c congress chamber s)
  /\
  ((forall body,
      match unmarshal (T := member_go.getMembersResponse.t) body,
            unmarshal (T := getMembersResponse.t) body with
      | inl msg1, inl msg2 => msg1 = msg2
      | inr _, inr _ => True
      | _, _ => False
      end) ->
   snd (fst (member_go.GetMembers c congress chamber s))
   = snd (fst (GetMembers c congress chamber s))).
Proof.
  rewrite member_go_GetMembers_execute, GetMembers_execute.
  split; [apply execute_same_calls|].
  intros Hsame. rewrite !execute_run.
  destruct (url_error _); [reflexivity|].
  destruct (round_trip _ _) as [[msg|resp] w']; [reflexivity|].
  destruct (http.failure _); [reflexivity|]. cbv zeta.
  specialize (Hsame (http.data (http.Body resp))).
  destruct (unmarshal (T := member_go.getMembersResponse.t) _),
           (unmarshal (T := getMembersResponse.t) _);
    simpl; try contradiction; now subst.
Qed.

End Earlier.

(** ** The fields of the envelope that are not read *)

Section Unread.

Context {P : URLParser} {N : Net}.
Context {U_members : Unmarshaler getMembersResponse.t}.
Context {U_member : Unmarshaler getMemberResponse.t}.
Context {U_state : Unmarshaler getMembersByStateResponse.t}.
Context {U_transition : Unmarshaler getMembersInTransitionResponse.t}.

Local Open Scope list_scope.

(** X12: of a decoded envelope a single-request operation reads [results]
    and nothing else.  Two runs whose bodies decode to envelopes with the
    same [results] return the same entities and the same nil error, whatever
    [status] and [copyright] say: an envelope that reports an error in its
    [status] and carries no results is answered like an empty one. *)
Theorem envelope_status_not_inspected
    (c : Client.t) (op : Operation) (s1 s2 : State) (body1 body2 : bytes)
    (w1 w2 : World) :
  single_request op = true ->
  delivers c (first_url c op) (world s1) body1 w1 ->
  delivers c (first_url c op) (world s2) body2 w2 ->
  same_results op body1 body2 ->
  fst (invoke c op s1) = fst (invoke c op s2) /\
  snd (fst (invoke c op s1)) = None.
Proof.
  intros Hsingle Hnet1 Hnet2 Hsame.
  destruct op; try discriminate Hsingle;
    unfold first_url in *; cbn [invoke paths hd same_results] in *;
    rewrite !tagged_run; cbn [fst snd];
    destruct (unmarshal body1) as [|e1] eqn:Hdec1; try contradiction;
    destruct (unmarshal body2) as [|e2] eqn:Hdec2; try contradiction.
  - rewrite !GetMembers_execute,
      (proj1 (execute_delivered _ _ _ _ _ _ _ _ Hnet1 Hdec1)),
      (proj1 (execute_delivered _ _ _ _ _ _ _ _ Hnet2 Hdec2)).
    cbn [fst snd]. now rewrite Hsame.
  - rewrite !GetMember_execute,
      (proj1 (execute_delivered _ _ _ _ _ _ _ _ Hnet1 Hdec1)),
      (proj1 (execute_delivered _ _ _ _ _ _ _ _ Hnet2 Hdec2)).
    cbn [fst snd]. now rewrite Hsame.
  - rewrite !GetChamberMembersByState_execute,
      (proj1 (execute_delivered _ _ _ _ _ _ _ _ Hnet1 Hdec1)),
      (proj1 (execute_delivered _ _ _ _ _ _ _ _ Hnet2 Hdec2)).
    cbn [fst snd]. now rewrite Hsame.
  - rewrite !GetChamberMembersByDistrict_execute,
      (proj1 (execute_delivered _ _ _ _ _ _ _ _ Hnet1 Hdec1)),
      (proj1 (execute_delivered _ _ _ _ _ _ _ _ Hnet2 Hdec2)).
    cbn [fst snd]. now rewrite Hsame.
  - rewrite !GetNewMembers_execute,
      (proj1 (execute_delivered _ _ _ _ _ _ _ _ Hnet1 Hdec1)),
      (proj1 (execute_delivered _ _ _ _ _ _ _ _ Hnet2 Hdec2)).
    cbn [fst snd]. now rewrite Hsame.
  - rewrite !GetDepartingMembers_execute,
      (proj1 (execute_delivered _ _ _ _ _ _ _ _ Hnet1 Hdec1)),
      (proj1 (execute_delivered _ _ _ _ _ _ _ _ Hnet2 Hdec2)).
    cbn [fst snd]. now rewrite Hsame.
Qed.

End Unread.

(** ** More runs in the test environment *)

Section MoreRuns.

Import Mock.

Local Open Scope list_scope.
Local Open Scope Z_scope.

(** An endpoint without a scheme. *)
Lemma unparsable_url_no_request_witness :
  let c := Client.mk ":8080" "KEYgoesHERE123" in
  let s := start [Mock.ok 200 Mock.empty] in
  url_error (first_url c OpGetNewMembers) = Some "missing protocol scheme"%string /\
  invoke c OpGetNewMembers s
  = (Transitions [], Some (TransportError "missing protocol scheme"),
     mkState [Mock.ok 200 Mock.empty]
       [EvNewRequest "GET" ":8080/members/new.json"]).
Proof.
  intros c s. split; [reflexivity|].
  exact (unparsable_url_no_request c OpGetNewMembers s
           "missing protocol scheme" eq_refl).
Defined.

(** The connection drops while the body is being read. *)
Lemma broken_body_no_decode_witness :
  let op := OpGetMember "K000388" in
  let s := start [MockMember.cut 200 Mock.nobody] in
  fst (invoke Mock.client op s)
  = (Details MemberDetails.zero, Some (TransportError "unexpected EOF")) /\
  decoded (trace (snd (invoke Mock.client op s))) = [].
Proof.
  intros op s.
  rewrite (broken_body_no_decode Mock.client op s
             (http.mkResponse 200
                (http.mkBody (Mock.json Mock.nobody) (Some "unexpected EOF"%string)))
             [] "unexpected EOF" eq_refl eq_refl eq_refl).
  split; reflexivity.
Defined.

(** Nobody answers. *)
Lemma single_request_error_nothing_witness :
  let op := OpGetMembers 115 "senate" in
  let s := start (N := Mock.net) [] in
  snd (fst (invoke Mock.client op s)) = Some (TransportError "connection refused") /\
  fst (fst (invoke Mock.client op s)) = Summaries [].
Proof.
  intros op s. split; [reflexivity|].
  refine (single_request_error_nothing Mock.client op s eq_refl _).
  discriminate.
Defined.

(** Both chambers of a state: two requests, the house first. *)
Lemma success_sends_every_request_witness :
  let op := OpGetMembersByState "nj" in
  let run := invoke Mock.client op
               (start [Mock.ok 200 Mock.nj_house; Mock.ok 200 Mock.nj_senate]) in
  snd (fst run) = None /\
  sent (trace (snd run))
  = [api_request Mock.client
       "https://api.propublica.org/congress/v1/members/house/nj/current.json";
     api_request Mock.client
       "https://api.propublica.org/congress/v1/members/senate/nj/current.json"].
Proof.
  intros op run. split; [reflexivity|].
  exact (proj2 (proj2 (success_sends_every_request (N := Mock.net) Mock.client op
                         [Mock.ok 200 Mock.nj_house; Mock.ok 200 Mock.nj_senate])
                  eq_refl)).
Defined.

(** The house answers, the senate call gets a page of HTML: the error is the
    one of the second body decoded. *)
Lemma decode_error_from_last_body_witness :
  let op := OpGetMembersByState "nj" in
  let w := [Mock.ok 200 Mock.nj_house; Mock.ok 502 Mock.html] in
  let msg := "invalid character '<' looking for beginning of value"%string in
  snd (fst (invoke Mock.client op (start w))) = Some (DecodeError msg) /\
  exists bodies body,
    decoded (trace (snd (invoke Mock.client op (start w)))) = bodies ++ [body] /\
    malformed op body msg.
Proof.
  intros op w msg. split; [reflexivity|].
  exact (decode_error_from_last_body (N := Mock.net) Mock.client op w msg eq_refl).
Defined.

(** Two results: the first is returned. *)
Lemma GetMember_first_result_witness :
  let s := start [Mock.ok 200 MockMember.one_member] in
  fst (GetMember (U_member := MockMember.member_decoder) Mock.client "K000388" s)
  = (MockMember.klobuchar, None).
Proof.
  intros s.
  refine (GetMember_first_result (U_member := MockMember.member_decoder)
            Mock.client "K000388" s [] (Mock.json MockMember.one_member)
            (getMemberResponse.mk "" "" [MockMember.klobuchar; MockMember.sanders])
            MockMember.klobuchar [MockMember.sanders] eq_refl eq_refl _).
  split; [reflexivity|]. exists 200. reflexivity.
Defined.

(** Both chambers of a state. *)
Lemma GetMembersByState_both_chambers_witness :
  fst (GetMembersByState Mock.client "nj"
         (start [Mock.ok 200 Mock.nj_house; Mock.ok 200 Mock.nj_senate]))
  = ([Mock.search "P000034" "Frank Pallone"; Mock.search "B001288" "Cory Booker";
      Mock.search "M000639" "Robert Menendez"], None).
Proof.
  rewrite (GetMembersByState_both_chambers (N := Mock.net) Mock.client "nj"
             [Mock.ok 200 Mock.nj_house; Mock.ok 200 Mock.nj_senate]
             [Mock.ok 200 Mock.nj_senate] []
             (http.mkResponse 200 (http.mkBody (Mock.json Mock.nj_house) None))
             (http.mkResponse 200 (http.mkBody (Mock.json Mock.nj_senate) None))
             (getMembersByStateResponse.mk "" "" [Mock.search "P000034" "Frank Pallone"])
             (getMembersByStateResponse.mk "" ""
                [Mock.search "B001288" "Cory Booker";
                 Mock.search "M000639" "Robert Menendez"])
             eq_refl eq_refl eq_refl eq_refl eq_refl eq_refl eq_refl eq_refl).
  reflexivity.
Defined.

(** The earlier revision on two groups: the members of the first. *)
Lemma member_go_GetMembers_first_group_witness :
  let s := start [Mock.ok 200 Mock.senate_115_paged] in
  fst (member_go.GetMembers (U_members := MockMember.members_decoder)
         Mock.client 115 "senate" s)
  = ([MockMember.member "K000388" "Amy"], None).
Proof.
  intros s.
  refine (member_go_GetMembers_first_group (U_earlier := MockMember.members_decoder)
            Mock.client 115 "senate" s [] (Mock.json Mock.senate_115_paged)
            (member_go.getMembersResponse.mk "" ""
               [member_go.getMembersResults.mk "" "" 0 0 [MockMember.member "K000388" "Amy"];
                member_go.getMembersResults.mk "" "" 0 0
                  [MockMember.member "S000033" "Bernard"]])
            eq_refl _).
  split; [reflexivity|]. exists 200. reflexivity.
Defined.

(** The earlier revision on a page of HTML. *)
Lemma member_go_GetMembers_error_no_members_witness :
  let run := member_go.GetMembers (U_members := MockMember.members_decoder)
               Mock.client 115 "senate" (start [Mock.ok 502 Mock.html]) in
  snd (fst run)
  = Some (DecodeError "invalid character '<' looking for beginning of value") /\
  fst (fst run) = [].
Proof.
  intros run. split; [reflexivity|].
  exact (member_go_GetMembers_error_no_members
           (U_earlier := MockMember.members_decoder)
           Mock.client 115 "senate" (start [Mock.ok 502 Mock.html])
           (fst (fst run))
           (DecodeError "invalid character '<' looking for beginning of value")
           eq_refl).
Defined.

(** The two revisions against the same gateway. *)
Lemma GetMembers_revisions_same_calls_witness :
  let s := start [Mock.ok 502 Mock.html] in
  snd (fst (member_go.GetMembers (U_members := MockMember.members_decoder)
              Mock.client 115 "senate" s))
  = snd (fst (GetMembers Mock.client 115 "senate" s)).
Proof.
  intros s.
  refine (proj2 (GetMembers_revisions_same_calls
                   (U_earlier := MockMember.members_decoder)
                   Mock.client 115 "senate" s) _).
  intros body.
  unfold unmarshal, MockMember.members_decoder, Mock.members_decoder,
    Mock.from_table.
  cbn [find fst snd].
  repeat match goal with
         | |- context [String.eqb ?a ?b] => destruct (String.eqb a b)
         end; exact I || reflexivity.
Defined.

(** An empty envelope and the envelope of a record that was not found. *)
Lemma envelope_status_not_inspected_witness :
  let op := OpGetDepartingMembers 115 "senate" in
  let run text :=
    invoke (U_transition := MockMember.transition_decoder) Mock.client op
      (start [Mock.ok 200 text]) in
  fst (run Mock.empty) = fst (run MockMember.not_found) /\
  fst (run MockMember.not_found) = (Transitions [], None).
Proof.
  intros op run.
  assert (Hnet : forall text,
    delivers Mock.client (first_url Mock.client op)
      (world (start [Mock.ok 200 text])) (Mock.json text) []).
  { intros text. split; [reflexivity|]. exists 200. reflexivity. }
  split; [|reflexivity].
  exact (proj1 (envelope_status_not_inspected
                  (U_transition := MockMember.transition_decoder)
                  Mock.client op _ _ _ _ [] []
                  eq_refl (Hnet Mock.empty) (Hnet MockMember.not_found) eq_refl)).
Defined.

End MoreRuns.
